(** * Bucket lister: a shallow embedding of [lambda_function.py]

    The repository holds two AWS Lambda handlers:
    - [src/lambda_function.py]: lists up to ten objects of an S3 bucket
      and reports the outcome as a response dictionary;
    - [src/lambda/lambda_function.py]: a greeting handler without storage
      access.

    Both are embedded below as functions over explicit models of what they
    read (the event, [os.environ], the boto3 client) and of what they do
    (printing, logging, calling the provider). *)

From Stdlib Require Import ZArith Ascii String List Lia DecimalString DecimalPos DecimalN.
From stdpp Require Import base decidable option list strings gmap.

Set Warnings "-register-all".

Local Open Scope string_scope.
Local Open Scope Z_scope.

(** ** Python values *)

Module Py.

(** The values a decoded JSON payload is made of.  Dictionaries keep the
    insertion order of their items, as Python's do; a lookup returns the
    first item with the key (the keys of a dictionary of Python are
    distinct).  Floating-point numbers are left out, and integers are
    written in full, without the interpreter's limit on the number of
    digits.  A character of a string stands for the code point of the
    same number (below 256). *)
Inductive value : Type :=
| None_
| Bool (b : bool)
| Int (n : Z)
| Str (s : string)
| List (items : list value)
| Dict (items : list (string * value)).

(** [bool(v)]: the truth value used by [not], [or] and [if]. *)
Definition truthy (v : value) : bool :=
  match v with
  | None_ => false
  | Bool b => b
  | Int n => negb (n =? 0)
  | Str s => negb (String.eqb s "")
  | List items => negb (Nat.eqb (length items) 0)
  | Dict items => negb (Nat.eqb (length items) 0)
  end.

(** [a or b] *)
Definition or_ (a b : value) : value := if truthy a then a else b.

(** Lookup in the items of a dictionary. *)
Fixpoint assoc {A : Type} (k : string) (items : list (string * A)) : option A :=
  match items with
  | [] => None
  | (k', v) :: rest => if String.eqb k k' then Some v else assoc k rest
  end.

Definition keys {A : Type} (items : list (string * A)) : list string :=
  map fst items.

(** *** Characters *)

Definition hex_digit (n : N) : ascii :=
  match n with
  | 0 => "0" | 1 => "1" | 2 => "2" | 3 => "3" | 4 => "4" | 5 => "5"
  | 6 => "6" | 7 => "7" | 8 => "8" | 9 => "9" | 10 => "a" | 11 => "b"
  | 12 => "c" | 13 => "d" | 14 => "e" | _ => "f"
  end%N%char.

(** ["%02x" % ord(c)] *)
Definition hex2 (c : ascii) : string :=
  let n := N_of_ascii c in
  String (hex_digit (n / 16)) (String (hex_digit (n mod 16)) "").

Definition backslash : ascii := "\"%char.
Definition dquote : ascii := ascii_of_N 34.
Definition squote : ascii := "'"%char.

Fixpoint contains_char (c : ascii) (s : string) : bool :=
  match s with
  | EmptyString => false
  | String c' s' => Ascii.eqb c c' || contains_char c s'
  end.

Fixpoint concat_map (f : ascii -> string) (s : string) : string :=
  match s with
  | EmptyString => ""
  | String c s' => f c +:+ concat_map f s'
  end.

Fixpoint join (sep : string) (parts : list string) : string :=
  match parts with
  | [] => ""
  | [p] => p
  | p :: rest => p +:+ sep +:+ join sep rest
  end.

(** *** Integers in decimal *)

Definition decimal (n : N) : string := NilEmpty.string_of_uint (N.to_uint n).

(** [str(n)] for an integer. *)
Definition str_int (n : Z) : string :=
  match n with
  | Zneg p => String "-" (decimal (Npos p))
  | _ => decimal (Z.to_N n)
  end.

(** *** [repr] and [str] *)

(** [str.isprintable] on one code point below 256. *)
Definition printable (c : ascii) : bool :=
  let n := N_of_ascii c in
  ((32 <=? n) && (n <? 127) || (160 <? n) && negb (n =? 173))%N.

Definition repr_char (quote : ascii) (c : ascii) : string :=
  if Ascii.eqb c quote || Ascii.eqb c backslash then String backslash (String c "")
  else match N_of_ascii c with
       | 9%N => String backslash "t"
       | 10%N => String backslash "n"
       | 13%N => String backslash "r"
       | _ => if printable c then String c ""
              else String backslash ("x" +:+ hex2 c)
       end.

(** [repr(s)] for a string: single quotes, unless the string has a
    single quote and no double quote. *)
Definition repr_str (s : string) : string :=
  let quote := if contains_char squote s && negb (contains_char dquote s)
               then dquote else squote in
  String quote (concat_map (repr_char quote) s) +:+ String quote "".

Fixpoint repr (v : value) : string :=
  match v with
  | None_ => "None"
  | Bool true => "True"
  | Bool false => "False"
  | Int n => str_int n
  | Str s => repr_str s
  | List items => "[" +:+ join ", " (map repr items) +:+ "]"
  | Dict items =>
      "{" +:+ join ", " (map (fun kv => repr_str (fst kv) +:+ ": " +:+ repr (snd kv)) items) +:+ "}"
  end.

(** [str(v)], which is what an f-string field [{v}] renders. *)
Definition str (v : value) : string :=
  match v with
  | Str s => s
  | _ => repr v
  end.

(** *** [json.dumps] with its default arguments *)

Module json.

(** One character of a string under [ensure_ascii=True]. *)
Definition escape_char (c : ascii) : string :=
  if Ascii.eqb c dquote then String backslash (String dquote "")
  else if Ascii.eqb c backslash then String backslash (String backslash "")
  else match N_of_ascii c with
       | 8%N => String backslash "b"
       | 9%N => String backslash "t"
       | 10%N => String backslash "n"
       | 12%N => String backslash "f"
       | 13%N => String backslash "r"
       | n => if ((32 <=? n) && (n <? 127))%N then String c ""
              else String backslash ("u00" +:+ hex2 c)
       end.

Definition encode_str (s : string) : string :=
  String dquote (concat_map escape_char s) +:+ String dquote "".

(** ["%04x" % n] for [n] below 65536. *)
Definition hex4 (n : N) : string :=
  String (hex_digit (n / 4096 mod 16))
    (String (hex_digit (n / 256 mod 16))
       (String (hex_digit (n / 16 mod 16))
          (String (hex_digit (n mod 16)) "")))%N.

(** The encoder on any code point, [py_encode_basestring_ascii] of
    [json.encoder]: the strings of this model hold code points below
    256, on which it is [escape_char]; above, it writes four
    hexadecimal digits, and a surrogate pair from U+10000 on. *)
Definition escape_code_point (n : N) : string :=
  (if n =? 34 then String backslash (String dquote "")
   else if n =? 92 then String backslash (String backslash "")
   else match n with
        | 8 => String backslash "b"
        | 9 => String backslash "t"
        | 10 => String backslash "n"
        | 12 => String backslash "f"
        | 13 => String backslash "r"
        | _ =>
            if (32 <=? n) && (n <? 127) then String (ascii_of_N n) ""
            else if n <? 65536 then String backslash ("u" +:+ hex4 n)
            else
              let n' := n - 65536 in
              let s1 := N.lor 55296 (N.land (N.shiftr n' 10) 1023) in
              let s2 := N.lor 56320 (N.land n' 1023) in
              String backslash ("u" +:+ hex4 s1) +:+ String backslash ("u" +:+ hex4 s2)
        end)%N.

(** Item separator [", "], key separator [": "]. *)
Fixpoint dumps (v : value) : string :=
  match v with
  | None_ => "null"
  | Bool true => "true"
  | Bool false => "false"
  | Int n => str_int n
  | Str s => encode_str s
  | List items => "[" +:+ join ", " (map dumps items) +:+ "]"
  | Dict items =>
      "{" +:+ join ", " (map (fun kv => encode_str (fst kv) +:+ ": " +:+ dumps (snd kv)) items) +:+ "}"
  end.

(** The decoder, [json.loads], on the documents written without
    floating-point numbers.  The items of an object are kept as they
    are written. *)

Definition is_ws (c : ascii) : bool :=
  match N_of_ascii c with
  | 32%N | 9%N | 10%N | 13%N => true
  | _ => false
  end.

Fixpoint skip_ws (s : string) : string :=
  match s with
  | String c s' => if is_ws c then skip_ws s' else s
  | EmptyString => s
  end.

Definition digit_of (c : ascii) : option (Decimal.uint -> Decimal.uint) :=
  match N_of_ascii c with
  | 48%N => Some Decimal.D0 | 49%N => Some Decimal.D1 | 50%N => Some Decimal.D2
  | 51%N => Some Decimal.D3 | 52%N => Some Decimal.D4 | 53%N => Some Decimal.D5
  | 54%N => Some Decimal.D6 | 55%N => Some Decimal.D7 | 56%N => Some Decimal.D8
  | 57%N => Some Decimal.D9
  | _ => None
  end.

(** The longest run of digits at the head of [s], and what follows. *)
Fixpoint read_digits (s : string) : Decimal.uint * string :=
  match s with
  | String c s' =>
      match digit_of c with
      | Some d => let (ds, rest) := read_digits s' in (d ds, rest)
      | None => (Decimal.Nil, s)
      end
  | EmptyString => (Decimal.Nil, s)
  end.

(** A fraction or an exponent follows: the number is a float. *)
Definition float_follows (s : string) : bool :=
  match s with
  | String c _ => Ascii.eqb c "." || Ascii.eqb c "e" || Ascii.eqb c "E"
  | EmptyString => false
  end.

Definition uint_eqb (a b : Decimal.uint) : bool :=
  if Decimal.uint_eq_dec a b then true else false.

(** An integer: an optional sign, then [0] or digits without a leading
    zero. *)
Definition split_sign (s : string) : bool * string :=
  match s with
  | String c r => if Ascii.eqb c "-" then (true, r) else (false, s)
  | EmptyString => (false, s)
  end.

Definition parse_number (s : string) : option (value * string) :=
  let (negative, s1) := split_sign s in
  let (ds, rest) := read_digits s1 in
  if float_follows rest then None
  else if uint_eqb (Decimal.unorm ds) ds then
    let n := Z.of_N (N.of_uint ds) in
    Some (Int (if negative then - n else n), rest)
  else None.

Definition hex_value (c : ascii) : option N :=
  let n := N_of_ascii c in
  if ((48 <=? n) && (n <=? 57))%N then Some (n - 48)%N
  else if ((97 <=? n) && (n <=? 102))%N then Some (n - 87)%N
  else if ((65 <=? n) && (n <=? 70))%N then Some (n - 55)%N
  else None.

(** The character written by the escape [\uXXXX], when it is one of the
    code points below 256. *)
Definition unicode_escape (h1 h2 h3 h4 : ascii) : option ascii :=
  match hex_value h1, hex_value h2, hex_value h3, hex_value h4 with
  | Some a, Some b, Some c, Some d =>
      let code := (((a * 16 + b) * 16 + c) * 16 + d)%N in
      if (code <? 256)%N then Some (ascii_of_N code) else None
  | _, _, _, _ => None
  end.

Definition cons_char (c : ascii) (r : option (string * string)) : option (string * string) :=
  match r with
  | Some (s, rest) => Some (String c s, rest)
  | None => None
  end.

(** The characters of a string up to its closing quote, and what follows
    the quote; [s] starts after the opening quote. *)
Fixpoint scan_string (s : string) : option (string * string) :=
  match s with
  | EmptyString => None
  | String c s' =>
      if Ascii.eqb c dquote then Some ("", s')
      else if Ascii.eqb c backslash then
        match s' with
        | EmptyString => None
        | String e s'' =>
            match N_of_ascii e with
            | 34%N => cons_char dquote (scan_string s'')
            | 92%N => cons_char backslash (scan_string s'')
            | 47%N => cons_char "/" (scan_string s'')
            | 98%N => cons_char (ascii_of_N 8) (scan_string s'')
            | 102%N => cons_char (ascii_of_N 12) (scan_string s'')
            | 110%N => cons_char (ascii_of_N 10) (scan_string s'')
            | 114%N => cons_char (ascii_of_N 13) (scan_string s'')
            | 116%N => cons_char (ascii_of_N 9) (scan_string s'')
            | 117%N =>
                match s'' with
                | String h1 (String h2 (String h3 (String h4 s3))) =>
                    match unicode_escape h1 h2 h3 h4 with
                    | Some u => cons_char u (scan_string s3)
                    | None => None
                    end
                | _ => None
                end
            | _ => None
            end
        end
      else if (N_of_ascii c <? 32)%N then None
      else cons_char c (scan_string s')
  end.

(** [s] starts with [word]: what follows it. *)
Fixpoint expect (word s : string) : option string :=
  match word with
  | EmptyString => Some s
  | String c word' =>
      match s with
      | String c' s' => if Ascii.eqb c c' then expect word' s' else None
      | EmptyString => None
      end
  end.

Definition literal (word : string) (v : value) (s : string) : option (value * string) :=
  match expect word s with
  | Some rest => Some (v, rest)
  | None => None
  end.

(** The value at the head of [s] and what follows it.  [fuel] bounds the
    number of nested calls. *)
Fixpoint parse_value (fuel : nat) (s : string) {struct fuel} : option (value * string) :=
  match fuel with
  | O => None
  | S fuel' =>
      match s with
      | EmptyString => None
      | String c s' =>
          match N_of_ascii c with
          | 110%N => literal "ull" None_ s'
          | 116%N => literal "rue" (Bool true) s'
          | 102%N => literal "alse" (Bool false) s'
          | 34%N =>
              match scan_string s' with
              | Some (str, rest) => Some (Str str, rest)
              | None => None
              end
          | 91%N =>
              match skip_ws s' with
              | String c1 r1 =>
                  if Ascii.eqb c1 "]" then Some (List [], r1)
                  else match parse_array fuel' (String c1 r1) with
                       | Some (items, rest) => Some (List items, rest)
                       | None => None
                       end
              | EmptyString => None
              end
          | 123%N =>
              match skip_ws s' with
              | String c1 r1 =>
                  if Ascii.eqb c1 "}" then Some (Dict [], r1)
                  else match parse_object fuel' (String c1 r1) with
                       | Some (items, rest) => Some (Dict items, rest)
                       | None => None
                       end
              | EmptyString => None
              end
          | _ => parse_number s
          end
      end
  end
with parse_array (fuel : nat) (s : string) {struct fuel} : option (list value * string) :=
  match fuel with
  | O => None
  | S fuel' =>
      match parse_value fuel' s with
      | Some (v, r) =>
          match skip_ws r with
          | String c r' =>
              if Ascii.eqb c "," then
                match parse_array fuel' (skip_ws r') with
                | Some (vs, rest) => Some (v :: vs, rest)
                | None => None
                end
              else if Ascii.eqb c "]" then Some ([v], r')
              else None
          | EmptyString => None
          end
      | None => None
      end
  end
with parse_object (fuel : nat) (s : string) {struct fuel} : option (list (string * value) * string) :=
  match fuel with
  | O => None
  | S fuel' =>
      match s with
      | String q s1 =>
          if Ascii.eqb q dquote then
            match scan_string s1 with
            | Some (k, r) =>
                match skip_ws r with
                | String colon r1 =>
                    if Ascii.eqb colon ":" then
                      match parse_value fuel' (skip_ws r1) with
                      | Some (v, r2) =>
                          match skip_ws r2 with
                          | String c r3 =>
                              if Ascii.eqb c "," then
                                match parse_object fuel' (skip_ws r3) with
                                | Some (kvs, rest) => Some ((k, v) :: kvs, rest)
                                | None => None
                                end
                              else if Ascii.eqb c "}" then Some ([(k, v)], r3)
                              else None
                          | EmptyString => None
                          end
                      | None => None
                      end
                    else None
                | EmptyString => None
                end
            | None => None
            end
          else None
      | EmptyString => None
      end
  end.

(** [json.loads(s)]: one value, with nothing but blanks around it. *)
Definition loads (s : string) : option value :=
  match parse_value (S (String.length s)) (skip_ws s) with
  | Some (v, rest) =>
      match skip_ws rest with
      | EmptyString => Some v
      | String _ _ => None
      end
  | None => None
  end.

End json.

(** *** [datetime.datetime] *)

(** [utcoffset] is the offset of the [tzinfo] in microseconds, absent
    for a naive value. *)
Record datetime : Type := {
  year : Z; month : Z; day : Z;
  hour : Z; minute : Z; second : Z; microsecond : Z;
  utcoffset : option Z
}.

(** ["%0<width>d" % n] for [0 <= n]. *)
Definition zero_pad (width : nat) (n : Z) : string :=
  let digits : string := str_int n in
  string_of_list_ascii (repeat "0"%char (width - String.length digits)) +:+ digits.

(** [_format_offset] of the [datetime] module. *)
Definition format_offset (off : option Z) : string :=
  match off with
  | None => ""
  | Some us =>
      let sign := if us <? 0 then "-" else "+" in
      let a := Z.abs us in
      let hh := a / 3600000000 in
      let r := a mod 3600000000 in
      let mm := r / 60000000 in
      let ss := r mod 60000000 in
      sign +:+ zero_pad 2 hh +:+ ":" +:+ zero_pad 2 mm
      +:+ (if ss =? 0 then ""
           else ":" +:+ zero_pad 2 (ss / 1000000)
                +:+ (if ss mod 1000000 =? 0 then ""
                     else "." +:+ zero_pad 6 (ss mod 1000000)))
  end.

(** [dt.isoformat()] with the separator [T] and [timespec='auto']. *)
Definition isoformat (dt : datetime) : string :=
  zero_pad 4 (year dt) +:+ "-" +:+ zero_pad 2 (month dt) +:+ "-" +:+ zero_pad 2 (day dt)
  +:+ "T" +:+ zero_pad 2 (hour dt) +:+ ":" +:+ zero_pad 2 (minute dt)
  +:+ ":" +:+ zero_pad 2 (second dt)
  +:+ (if microsecond dt =? 0 then "" else "." +:+ zero_pad 6 (microsecond dt))
  +:+ format_offset (utcoffset dt).

End Py.

(** ** Effects of a handler *)

(** An exception instance, as the [except] clauses of the handler tell
    them apart: a [botocore.exceptions.ClientError], or any other
    instance of [Exception], known by its [str(e)].

    Of a [ClientError] the handler reads [e.response['Error']]: [Error_]
    is the dictionary the response holds under that key, [None] when the
    response has no such key.  The provider fills the dictionary with
    strings, [Code] and [Message] among them; the constructor of
    [ClientError] asks for neither, so a dictionary may lack them.

    What is raised outside the class [Exception] ([KeyboardInterrupt],
    [SystemExit]) is not modelled. *)
Inductive exn : Type :=
| ClientError (Error_ : option (list (string * string))) (operation_name : string)
| Exception (description : string).

(** How a call ends. *)
Inductive outcome (A : Type) : Type :=
| Return (a : A)
| Raise (e : exn).
Arguments Return {A} a.
Arguments Raise {A} e.

(** Keyword arguments of [list_objects_v2]; an argument that is not
    passed is [None]. *)
Record ListObjectsV2Request : Type := {
  Bucket : Py.value;
  MaxKeys : option Z;
  ContinuationToken : option string
}.

(** An entry of [response['Contents']]. *)
Record S3Object : Type := {
  Key : string;
  Size : Z;
  LastModified : Py.datetime
}.

(** The response of [list_objects_v2]; [Contents] is absent when the
    listing is empty. *)
Record ListObjectsV2Output : Type := {
  Contents : option (list S3Object)
}.

(** The client [boto3.client('s3')] gives, as far as the handler uses it:
    its method [list_objects_v2]. *)
Abbreviation S3Client := (ListObjectsV2Request -> outcome ListObjectsV2Output).

(** What a handler does besides returning, in program order. *)
Inductive effect : Type :=
| Print (line : string)
| LogInfo (line : string)
| Boto3Client (service : string)
| ListObjectsV2 (kwargs : ListObjectsV2Request).

(** A computation: the effects it performed and how it ended. *)
Definition M (A : Type) : Type := list effect * outcome A.

Definition ret {A : Type} (a : A) : M A := ([], Return a).

Definition raise {A : Type} (e : exn) : M A := ([], Raise e).

Definition bind {A B : Type} (m : M A) (k : A -> M B) : M B :=
  match m with
  | (t, Return a) => let (t', r) := k a in ((t ++ t')%list, r)
  | (t, Raise e) => (t, Raise e)
  end.

(** [try: m  except Exception as e: handler e] *)
Definition try_except {A : Type} (m : M A) (handler : exn -> M A) : M A :=
  match m with
  | (t, Raise e) => let (t', r) := handler e in ((t ++ t')%list, r)
  | done => done
  end.

Definition tell (e : effect) : M unit := ([e], Return tt).

Definition print (line : string) : M unit := tell (Print line).

#[global] Instance M_ret : MRet M := @ret.
#[global] Instance M_bind : MBind M := fun A B k m => bind m k.

(** The response dictionary of a handler; [headers] is absent when the
    dictionary has no such key. *)
Record Response : Type := {
  statusCode : Z;
  headers : option (list (string * string));
  body : string
}.

(** The name [type(v).__name__] of the class of a value. *)
Definition type_name (v : Py.value) : string :=
  match v with
  | Py.None_ => "NoneType"
  | Py.Bool _ => "bool"
  | Py.Int _ => "int"
  | Py.Str _ => "str"
  | Py.List _ => "list"
  | Py.Dict _ => "dict"
  end.

(** [obj.get(key, default)]: only a dictionary has the method. *)
Definition get_method (obj : Py.value) (key : string) (default_ : Py.value) : M Py.value :=
  match obj with
  | Py.Dict items => ret (default default_ (Py.assoc key items))
  | _ => raise (Exception ("'" +:+ type_name obj +:+ "' object has no attribute 'get'"))
  end.

(** [d[key]] on a dictionary: a missing key raises [KeyError], whose
    [str] is the [repr] of the key. *)
Definition subscript {A : Type} (d : list (string * A)) (key : string) : M A :=
  match Py.assoc key d with
  | Some v => ret v
  | None => raise (Exception (Py.repr_str key))
  end.

(** [e.response['Error']] on a [ClientError] *)
Definition response_Error (Error_ : option (list (string * string)))
  : M (list (string * string)) :=
  match Error_ with
  | Some error => ret error
  | None => raise (Exception (Py.repr_str "Error"))
  end.

(** ** The bucket lister, [src/lambda_function.py] *)

Module S3Handler.

(** What the handler reads from its surroundings: [os.environ] and the
    outcome of [boto3.client]. *)
Record World : Type := {
  environ : gmap string string;
  boto3_client : string -> outcome S3Client
}.

(** [os.environ.get(name)] *)
Definition environ_get (w : World) (name : string) : Py.value :=
  match environ w !! name with
  | Some s => Py.Str s
  | None => Py.None_
  end.

(** [boto3.client(service)] *)
Definition client (w : World) (service : string) : M S3Client :=
  ([Boto3Client service], boto3_client w service).

(** [s3_client.list_objects_v2] called with keyword arguments *)
Definition list_objects_v2 (s3_client : S3Client) (kwargs : ListObjectsV2Request)
  : M ListObjectsV2Output :=
  ([ListObjectsV2 kwargs], s3_client kwargs).

(** The dictionary appended to [objects] for one entry of [Contents]. *)
Definition object_summary (obj : S3Object) : Py.value :=
  Py.Dict [("key", Py.Str (Key obj));
           ("size", Py.Int (Size obj));
           ("last_modified", Py.Str (Py.isoformat (LastModified obj)))].

Definition lambda_handler {C : Type} (event : Py.value) (context : C) (w : World) : M Response :=
  print "Hello World! Starting S3 bucket read operation...";;
  requested ← get_method event "bucket_name" Py.None_;
  let bucket_name := Py.or_ requested (environ_get w "S3_BUCKET_NAME") in
  if negb (Py.truthy bucket_name) then
    mret {| statusCode := 400;
            headers := None;
            body := Py.json.dumps (Py.Dict [("message", Py.Str "Error: No bucket name provided. Please specify bucket_name in event or S3_BUCKET_NAME environment variable.");
                                            ("hello", Py.Str "world")]) |}
  else
    s3_client ← client w "s3";
    try_except
      (print ("Reading from S3 bucket: " +:+ Py.str bucket_name);;
       response ← list_objects_v2 s3_client
                    {| Bucket := bucket_name; MaxKeys := Some 10; ContinuationToken := None |};
       let objects :=
         match Contents response with
         | Some contents => map object_summary contents
         | None => []
         end in
       let message := "Hello World! Successfully read from S3 bucket: " +:+ Py.str bucket_name in
       print message;;
       mret {| statusCode := 200;
               headers := None;
               body := Py.json.dumps (Py.Dict [("message", Py.Str message);
                                               ("bucket", bucket_name);
                                               ("object_count", Py.Int (Z.of_nat (length objects)));
                                               ("objects", Py.List objects);
                                               ("hello", Py.Str "world")]) |})
      (fun e =>
         match e with
         | ClientError Error_ _ =>
             error_code ← response_Error Error_ ≫= (fun error => subscript error "Code");
             error_message ← response_Error Error_ ≫= (fun error => subscript error "Message");
             print ("Error reading from S3 bucket: " +:+ error_code +:+ " - " +:+ error_message);;
             mret {| statusCode := 500;
                     headers := None;
                     body := Py.json.dumps (Py.Dict [("message", Py.Str ("Error reading from S3 bucket: " +:+ error_code));
                                                     ("error", Py.Str error_message);
                                                     ("hello", Py.Str "world")]) |}
         | Exception description =>
             print ("Unexpected error: " +:+ description);;
             mret {| statusCode := 500;
                     headers := None;
                     body := Py.json.dumps (Py.Dict [("message", Py.Str "Unexpected error occurred");
                                                     ("error", Py.Str description);
                                                     ("hello", Py.Str "world")]) |}
         end).

End S3Handler.

(** ** The greeting handler, [src/lambda/lambda_function.py] *)

Module HelloHandler.

(** The [context] argument: a falsy value ([None], an empty dictionary)
    or an object of some class with attributes. *)
Inductive Context : Type :=
| Falsy
| Object (class_name : string) (attributes : list (string * Py.value)).

(** [obj.name] on a truthy context. *)
Definition getattr (class_name : string) (attributes : list (string * Py.value))
    (name : string) : M Py.value :=
  match Py.assoc name attributes with
  | Some v => mret v
  | None => raise (Exception ("'" +:+ class_name +:+ "' object has no attribute '" +:+ name +:+ "'"))
  end.

(** [context.name if context else fallback] *)
Definition attribute_or (context : Context) (name fallback : string) : M Py.value :=
  match context with
  | Falsy => mret (Py.Str fallback)
  | Object class_name attributes => getattr class_name attributes name
  end.

Definition info (line : string) : M unit := tell (LogInfo line).

(** [now] is the value of [datetime.now(timezone.utc)] at the call. *)
Definition lambda_handler (event : Py.value) (context : Context) (now : Py.datetime) : M Response :=
  info ("Received event: " +:+ Py.json.dumps event);;
  let current_time := Py.isoformat now in
  name ← get_method event "name" (Py.Str "World");
  let message := "Hello, " +:+ Py.str name +:+ "!" in
  info ("Returning message: " +:+ message);;
  function_name ← attribute_or context "function_name" "local";
  request_id ← attribute_or context "request_id" "N/A";
  mret {| statusCode := 200;
          headers := Some [("Content-Type", "application/json");
                           ("Access-Control-Allow-Origin", "*")];
          body := Py.json.dumps (Py.Dict [("message", Py.Str message);
                                          ("timestamp", Py.Str current_time);
                                          ("function_name", function_name);
                                          ("request_id", request_id)]) |}.

End HelloHandler.

(** ** Reading a response *)

(** [json.loads(result['body'])], as the tests read a response. *)
Definition body_json (r : Response) : option Py.value := Py.json.loads (body r).

(** The field [name] of the document in the body, when the body is an
    object that has it. *)
Definition field (name : string) (r : Response) : option Py.value :=
  match body_json r with
  | Some (Py.Dict items) => Py.assoc name items
  | _ => None
  end.

(** ** The specification's wording *)


(** The provider keeps to [MaxKeys]: a listing never has more entries
    than were asked for. *)
Definition honours_max_keys (s3 : S3Client) : Prop :=
  forall kwargs response n,
    s3 kwargs = Return response ->
    MaxKeys kwargs = Some n ->
    Z.of_nat (length (default [] (Contents response))) <= n.

(** Two outcomes of [boto3.client] behave alike: the same exception, or
    clients that answer every call alike. *)
Definition same_behaviour (a b : outcome S3Client) : Prop :=
  match a, b with
  | Return s3, Return s3' => forall kwargs, s3 kwargs = s3' kwargs
  | Raise e, Raise e' => e = e'
  | _, _ => False
  end.

(** The listings asked of the provider, in order. *)
(** The key whose subscript fails in the clause [except ClientError], in
    the order the clause reads them: [e.response['Error']], then
    [['Code']], then [['Message']]; [None] when none fails. *)
Definition missing_key (Error_ : option (list (string * string))) : option string :=
  match Error_ with
  | None => Some "Error"
  | Some error =>
      match Py.assoc "Code" error, Py.assoc "Message" error with
      | None, _ => Some "Code"
      | Some _, None => Some "Message"
      | Some _, Some _ => None
      end
  end.

Definition listing_calls (trace : list effect) : list ListObjectsV2Request :=
  omap (fun e => match e with ListObjectsV2 kwargs => Some kwargs | _ => None end) trace.

(** ** Fixtures of the test suite *)

(** Writes a document with single quotes for the double ones. *)
Definition dq (s : string) : string :=
  Py.concat_map (fun c => String (if Ascii.eqb c Py.squote then Py.dquote else c) "") s.

(** [patch('lambda_function.boto3.client')] with a client whose
    [list_objects_v2] has the given return value or side effect. *)
Definition mock_boto (result : outcome ListObjectsV2Output) : string -> outcome S3Client :=
  fun _ => Return (fun _ => result).

(** A [boto3.client] that cannot build a client. *)
Definition no_client : string -> outcome S3Client :=
  fun _ => Raise (Exception "You must specify a region.").

Definition world (env : gmap string string) (boto : string -> outcome S3Client)
  : S3Handler.World :=
  {| S3Handler.environ := env; S3Handler.boto3_client := boto |}.

(** [datetime(y, mo, d, h, mi, s)] *)
Definition naive (y mo d h mi s : Z) : Py.datetime :=
  {| Py.year := y; Py.month := mo; Py.day := d; Py.hour := h; Py.minute := mi;
     Py.second := s; Py.microsecond := 0; Py.utcoffset := None |}.

Definition two_files : list S3Object :=
  [ {| Key := "file1.txt"; Size := 1024; LastModified := naive 2024 1 1 12 0 0 |};
    {| Key := "file2.txt"; Size := 2048; LastModified := naive 2024 1 2 12 0 0 |} ].

Definition numbered_file (i : nat) : S3Object :=
  {| Key := "file" +:+ Py.str_int (Z.of_nat i) +:+ ".txt";
     Size := Z.of_nat i;
     LastModified := naive 2024 1 1 12 0 0 |}.

(** Eleven entries: one more than the handler asks for. *)
Definition eleven_files : list S3Object := map numbered_file (seq 1 11).

(** A client over a bucket that holds [files]: it lists the first
    [MaxKeys] of them, a thousand by default, and rejects a negative
    [MaxKeys]. *)
Definition bucket_of (files : list S3Object) : S3Client :=
  fun kwargs =>
    match MaxKeys kwargs with
    | Some n =>
        if n <? 0 then Raise (Exception "Parameter validation failed")
        else Return {| Contents := Some (take (Z.to_nat n) files) |}
    | None => Return {| Contents := Some (take 1000 files) |}
    end.

Definition no_such_bucket : exn :=
  ClientError (Some [("Code", "NoSuchBucket");
                     ("Message", "The specified bucket does not exist")])
              "ListObjectsV2".

(** A [ClientError] built without a code, as
    [ClientError({'Error': {'Message': 'Access Denied'}}, 'ListObjectsV2')]. *)
Definition without_code : exn :=
  ClientError (Some [("Message", "Access Denied")]) "ListObjectsV2".

Definition test_event : Py.value := Py.Dict [("bucket_name", Py.Str "test-bucket")].

(** A text with a letter outside ASCII and a line feed. *)
Definition odd_message : string :=
  "caf" +:+ String (ascii_of_N 233) (String (ascii_of_N 10) "").

(** ** The local runs, under [if __name__ == "__main__"] *)

(** A line feed and the blanks of [level] levels of indentation. *)
Definition newline_indent (indent level : nat) : string :=
  String (ascii_of_N 10) (string_of_list_ascii (repeat " "%char (indent * level))).

(** One item of an object at [level], value apart. *)
Definition indented_key (k : string) : string := Py.json.encode_str k +:+ ": ".

(** [json.dumps(v, indent=indent)]: an item a line, the separator of
    items without its blank. *)
Fixpoint dumps_indent (indent level : nat) (v : Py.value) : string :=
  match v with
  | Py.List [] => "[]"
  | Py.List items =>
      "[" +:+ newline_indent indent (S level)
      +:+ Py.join ("," +:+ newline_indent indent (S level))
                  (map (dumps_indent indent (S level)) items)
      +:+ newline_indent indent level +:+ "]"
  | Py.Dict [] => "{}"
  | Py.Dict items =>
      "{" +:+ newline_indent indent (S level)
      +:+ Py.join ("," +:+ newline_indent indent (S level))
                  (map (fun kv => indented_key (fst kv) +:+ dumps_indent indent (S level) (snd kv))
                       items)
      +:+ newline_indent indent level +:+ "}"
  | atom => Py.json.dumps atom
  end.

(** The response as the dictionary the handler returns. *)
Definition response_value (r : Response) : Py.value :=
  Py.Dict ([("statusCode", Py.Int (statusCode r))]
           ++ match headers r with
              | Some hs => [("headers", Py.Dict (map (fun h => (fst h, Py.Str (snd h))) hs))]
              | None => []
              end
           ++ [("body", Py.Str (body r))])%list.

(** The script of [src/lambda_function.py]. *)
Definition s3_main (w : S3Handler.World) : M unit :=
  let test_event := Py.Dict [("bucket_name", Py.Str "my-test-bucket")] in
  let test_context := Py.Dict [] in
  result ← S3Handler.lambda_handler test_event test_context w;
  print (String (ascii_of_N 10) "--- Test Result ---");;
  print (dumps_indent 2 0 (response_value result)).

(** The script of [src/lambda/lambda_function.py], with its class
    [MockContext]. *)
Definition hello_main (now : Py.datetime) : M unit :=
  let test_event := Py.Dict [("name", Py.Str "GitHub User")] in
  let mock_context :=
    HelloHandler.Object "MockContext"
      [("function_name", Py.Str "HelloWorldLambda");
       ("request_id", Py.Str "local-test-request-id")] in
  result ← HelloHandler.lambda_handler test_event mock_context now;
  print (dumps_indent 2 0 (response_value result)).

(** ** The test suite, [src/test_lambda_function.py] *)

Module TestSuite.

(** [sub in s] for two strings. *)
Fixpoint contains (sub s : string) : bool :=
  String.prefix sub s
  || match s with
     | EmptyString => false
     | String _ s' => contains sub s'
     end.

(** [container[key]] with a string for key; nothing when it raises. *)
Definition getitem (container : option Py.value) (key : string) : option Py.value :=
  match container with
  | Some (Py.Dict items) => Py.assoc key items
  | _ => None
  end.

(** [container[0]] *)
Definition first (container : option Py.value) : option Py.value :=
  match container with
  | Some (Py.List (v :: _)) => Some v
  | Some (Py.Str (String c _)) => Some (Py.Str (String c ""))
  | _ => None
  end.

(** [v == s] for a string [s]. *)
Definition eq_str (v : option Py.value) (s : string) : bool :=
  match v with
  | Some (Py.Str s') => String.eqb s' s
  | _ => false
  end.

(** [v == n] for an integer [n]; a truth value counts for 0 or 1. *)
Definition eq_int (v : option Py.value) (n : Z) : bool :=
  match v with
  | Some (Py.Int n') => n' =? n
  | Some (Py.Bool b) => (if b then 1 else 0) =? n
  | _ => false
  end.

(** [len(v) == n] *)
Definition len_is (v : option Py.value) (n : nat) : bool :=
  match v with
  | Some (Py.List items) => Nat.eqb (length items) n
  | Some (Py.Dict items) => Nat.eqb (length items) n
  | Some (Py.Str s) => Nat.eqb (String.length s) n
  | _ => false
  end.

(** [v == []] *)
Definition is_empty_list (v : option Py.value) : bool :=
  match v with
  | Some (Py.List []) => true
  | _ => false
  end.

(** [sub in v]: a part of a string, an item of a list, a key of a
    dictionary. *)
Definition has (sub : string) (v : option Py.value) : bool :=
  match v with
  | Some (Py.Str s) => contains sub s
  | Some (Py.List items) => existsb (fun item => eq_str (Some item) sub) items
  | Some (Py.Dict items) => existsb (String.eqb sub) (Py.keys items)
  | _ => false
  end.

(** A test calls the handler and passes when every assertion on the
    result holds; it does not when the handler raises. *)
Definition check (run : M Response) (assertions : Response -> option Py.value -> bool) : bool :=
  match snd run with
  | Return result => assertions result (body_json result)
  | Raise _ => false
  end.

(** The first test patches nothing: it runs in the environment of the
    test process, with the [boto3.client] of the library. *)
Definition test_missing_bucket_name (ambient : S3Handler.World) : bool :=
  check (S3Handler.lambda_handler (Py.Dict []) (Py.Dict []) ambient)
    (fun result body =>
       (statusCode result =? 400)
       && has "Error" (getitem body "message")
       && eq_str (getitem body "hello") "world").

(** [@patch.dict(os.environ, ...)] sets the variable on top of the
    environment of the test process; [boto3.client] is mocked. *)
Definition test_bucket_name_from_environment (environ : gmap string string) : bool :=
  check (S3Handler.lambda_handler (Py.Dict []) (Py.Dict [])
           {| S3Handler.environ := <["S3_BUCKET_NAME" := "test-bucket-env"]> environ;
              S3Handler.boto3_client :=
                fun _ => Return (fun _ => Return {| Contents := Some [] |}) |})
    (fun result body =>
       (statusCode result =? 200)
       && eq_str (getitem body "bucket") "test-bucket-env"
       && eq_str (getitem body "hello") "world").

Definition test_successful_s3_read (environ : gmap string string) : bool :=
  check (S3Handler.lambda_handler (Py.Dict [("bucket_name", Py.Str "test-bucket")]) (Py.Dict [])
           {| S3Handler.environ := environ;
              S3Handler.boto3_client :=
                fun _ => Return (fun _ =>
                  Return {| Contents :=
                              Some [ {| Key := "file1.txt"; Size := 1024;
                                        LastModified :=
                                          {| Py.year := 2024; Py.month := 1; Py.day := 1;
                                             Py.hour := 12; Py.minute := 0; Py.second := 0;
                                             Py.microsecond := 0; Py.utcoffset := None |} |};
                                     {| Key := "file2.txt"; Size := 2048;
                                        LastModified :=
                                          {| Py.year := 2024; Py.month := 1; Py.day := 2;
                                             Py.hour := 12; Py.minute := 0; Py.second := 0;
                                             Py.microsecond := 0; Py.utcoffset := None |} |} ] |}) |})
    (fun result body =>
       (statusCode result =? 200)
       && eq_str (getitem body "bucket") "test-bucket"
       && eq_int (getitem body "object_count") 2
       && len_is (getitem body "objects") 2
       && eq_str (getitem (first (getitem body "objects")) "key") "file1.txt"
       && eq_int (getitem (first (getitem body "objects")) "size") 1024
       && eq_str (getitem body "hello") "world"
       && has "Successfully read from S3 bucket" (getitem body "message")).

Definition test_empty_bucket (environ : gmap string string) : bool :=
  check (S3Handler.lambda_handler (Py.Dict [("bucket_name", Py.Str "empty-bucket")]) (Py.Dict [])
           {| S3Handler.environ := environ;
              S3Handler.boto3_client :=
                fun _ => Return (fun _ => Return {| Contents := None |}) |})
    (fun result body =>
       (statusCode result =? 200)
       && eq_str (getitem body "bucket") "empty-bucket"
       && eq_int (getitem body "object_count") 0
       && is_empty_list (getitem body "objects")
       && eq_str (getitem body "hello") "world").

Definition test_s3_client_error (environ : gmap string string) : bool :=
  check (S3Handler.lambda_handler (Py.Dict [("bucket_name", Py.Str "test-bucket")]) (Py.Dict [])
           {| S3Handler.environ := environ;
              S3Handler.boto3_client :=
                fun _ => Return (fun _ =>
                  Raise (ClientError (Some [("Code", "NoSuchBucket");
                                            ("Message", "The specified bucket does not exist")])
                                     "ListObjectsV2")) |})
    (fun result body =>
       (statusCode result =? 500)
       && has "Error reading from S3 bucket" (getitem body "message")
       && eq_str (getitem body "hello") "world").

Definition test_unexpected_error (environ : gmap string string) : bool :=
  check (S3Handler.lambda_handler (Py.Dict [("bucket_name", Py.Str "test-bucket")]) (Py.Dict [])
           {| S3Handler.environ := environ;
              S3Handler.boto3_client :=
                fun _ => Return (fun _ => Raise (Exception "Unexpected error")) |})
    (fun result body =>
       (statusCode result =? 500)
       && has "Unexpected error occurred" (getitem body "message")
       && eq_str (getitem body "hello") "world").

End TestSuite.

(** ** Plain text *)

(** A character of the printable part of ASCII, from the blank to the
    tilde. *)
Definition ascii_printable (c : ascii) : bool :=
  let n := N_of_ascii c in ((32 <=? n) && (n <? 127))%N.

(** [s.isascii() and s.isprintable()] *)
Fixpoint all_printable (s : string) : bool :=
  match s with
  | EmptyString => true
  | String c s' => ascii_printable c && all_printable s'
  end.

(** ** Notions used in the proofs about [json] *)

(** What may follow a number: no digit, and no fraction or exponent. *)
Definition delimits (rest : string) : bool :=
  match rest with
  | String c _ =>
      match Py.json.digit_of c with
      | Some _ => false
      | None => negb (Py.json.float_follows rest)
      end
  | EmptyString => true
  end.

(** A character a value may start with: no blank, no closing bracket. *)
Definition starts_value (c : ascii) : bool :=
  negb (Py.json.is_ws c) && negb (Ascii.eqb c "]") && negb (Ascii.eqb c "}").

(** One item of an object, as [json.dumps] writes it. *)
Definition dumps_item (kv : string * Py.value) : string :=
  Py.json.encode_str (fst kv) +:+ ": " +:+ Py.json.dumps (snd kv).

(** One item of an object, as [json.dumps] writes it with [indent]. *)
Definition dumps_indent_item (indent level : nat) (kv : string * Py.value) : string :=
  indented_key (fst kv) +:+ dumps_indent indent level (snd kv).

(** After an item: the separator [sep] and one blank. *)
Ltac eat_separator sep :=
  change (Py.json.skip_ws (String sep ?x)) with (String sep x);
  cbv beta iota;
  change (Ascii.eqb sep sep) with true;
  cbv beta iota;
  change (Py.json.skip_ws (String " "%char ?x)) with (Py.json.skip_ws x).

(** Unfolds the greeting handler down to its calls. *)
Ltac run_greeting :=
  unfold HelloHandler.lambda_handler, HelloHandler.attribute_or, HelloHandler.getattr,
    HelloHandler.info; cbn.

(** Unfolds the bucket lister down to its calls. *)
Ltac run_handler :=
  unfold S3Handler.lambda_handler, S3Handler.client, S3Handler.list_objects_v2; cbn.

(** What the call [call] of [list_objects_v2] did: it returned, raised a
    [ClientError] (without [Error], without [Code], without [Message],
    or with both), or raised another exception. *)
Ltac listing_cases call :=
  destruct call as [response|[[error|] op|description]] eqn:Hcall;
  [ | destruct (Py.assoc "Code" error) as [error_code|] eqn:Hcode;
      [ destruct (Py.assoc "Message" error) as [error_message|] eqn:Hmessage | ] | | ].

Ltac listing_outcome s3 :=
  match goal with
  | |- context [s3 ?kwargs] => listing_cases (s3 kwargs)
  | _ : context [s3 ?kwargs] |- _ => listing_cases (s3 kwargs)
  end.

(** * Properties *)

(** ** Strings *)

#[local] Arguments String.append !s1 s2 : simpl nomatch.

Lemma append_assoc (a b c : string) : (a +:+ b) +:+ c = a +:+ (b +:+ c).
Proof. induction a as [|x a IH]; simpl; [reflexivity | now rewrite IH]. Qed.

Lemma append_nil_r (a : string) : a +:+ "" = a.
Proof. induction a as [|x a IH]; simpl; [reflexivity | now rewrite IH]. Qed.

Lemma length_append (a b : string) :
  String.length (a +:+ b) = (String.length a + String.length b)%nat.
Proof. induction a as [|x a IH]; simpl; [reflexivity | now rewrite IH]. Qed.

(** ** Decoding what [json.dumps] writes *)

Lemma read_digits_decimal (d : Decimal.uint) (rest : string) :
  delimits rest = true ->
  Py.json.read_digits (NilEmpty.string_of_uint d +:+ rest) = (d, rest).
Proof.
  intros Hrest.
  induction d; simpl; try (rewrite IHd; reflexivity).
  destruct rest as [|c rest']; [reflexivity|].
  simpl in *. destruct (Py.json.digit_of c); [discriminate | reflexivity].
Qed.

Lemma unorm_to_uint (n : N) : Decimal.unorm (N.to_uint n) = N.to_uint n.
Proof.
  rewrite <- (DecimalN.Unsigned.of_to n) at 2.
  symmetry. apply DecimalN.Unsigned.to_of.
Qed.

Lemma decimal_head (n : N) :
  exists c s, Py.decimal n = String c s /\ Py.json.digit_of c <> None.
Proof.
  unfold Py.decimal.
  assert (Hnn : N.to_uint n <> Decimal.Nil).
  { destruct n; [discriminate | apply DecimalPos.Unsigned.to_uint_nonnil]. }
  destruct (N.to_uint n); try congruence; simpl; eexists _, _; (split; [reflexivity | discriminate]).
Qed.

Lemma split_sign_decimal (n : N) (rest : string) :
  Py.json.split_sign (Py.decimal n +:+ rest) = (false, Py.decimal n +:+ rest).
Proof.
  destruct (decimal_head n) as (c & s & Hd & Hc).
  rewrite Hd. simpl.
  destruct (Ascii.eqb_spec c "-") as [->|]; [now elim Hc | reflexivity].
Qed.

Lemma float_follows_delimits (rest : string) :
  delimits rest = true -> Py.json.float_follows rest = false.
Proof.
  destruct rest as [|x r]; [reflexivity|]. unfold delimits.
  destruct (Py.json.digit_of x); [discriminate|]. intros H. now apply negb_true_iff in H.
Qed.

Lemma parse_digits_decimal (n : N) (rest : string) (negative : bool) :
  delimits rest = true ->
  (let (ds, rest') := Py.json.read_digits (Py.decimal n +:+ rest) in
   if Py.json.float_follows rest' then None
   else if Py.json.uint_eqb (Decimal.unorm ds) ds then
     let m := Z.of_N (N.of_uint ds) in
     Some (Py.Int (if negative then - m else m), rest')
   else None)
  = Some (Py.Int (if negative then - Z.of_N n else Z.of_N n), rest).
Proof.
  intros Hrest. unfold Py.decimal. rewrite read_digits_decimal by assumption.
  rewrite (float_follows_delimits rest Hrest).
  unfold Py.json.uint_eqb. rewrite unorm_to_uint.
  destruct (Decimal.uint_eq_dec _ _); [|congruence].
  cbv zeta. now rewrite DecimalN.Unsigned.of_to.
Qed.

Lemma parse_number_int (n : Z) (rest : string) :
  delimits rest = true ->
  Py.json.parse_number (Py.str_int n +:+ rest) = Some (Py.Int n, rest).
Proof.
  intros Hrest. unfold Py.json.parse_number.
  destruct n as [|p|p]; unfold Py.str_int.
  - change (Z.to_N 0) with 0%N. rewrite split_sign_decimal.
    apply (parse_digits_decimal 0 rest false Hrest).
  - change (Z.to_N (Z.pos p)) with (Npos p). rewrite split_sign_decimal.
    apply (parse_digits_decimal (Npos p) rest false Hrest).
  - change (Py.json.split_sign (String "-" (Py.decimal (N.pos p)) +:+ rest))
      with (true, Py.decimal (N.pos p) +:+ rest).
    apply (parse_digits_decimal (Npos p) rest true Hrest).
Qed.

Lemma scan_escape_char (c : ascii) (tail : string) :
  Py.json.scan_string (Py.json.escape_char c +:+ tail)
  = Py.json.cons_char c (Py.json.scan_string tail).
Proof. destruct c as [[] [] [] [] [] [] [] []]; reflexivity. Qed.

Lemma scan_string_encoded (s rest : string) :
  Py.json.scan_string (Py.concat_map Py.json.escape_char s +:+ String Py.dquote rest)
  = Some (s, rest).
Proof.
  induction s as [|c s IH]; [reflexivity|].
  simpl Py.concat_map. rewrite append_assoc, scan_escape_char, IH. reflexivity.
Qed.

Lemma encode_str_append (s rest : string) :
  Py.json.encode_str s +:+ rest
  = String Py.dquote (Py.concat_map Py.json.escape_char s +:+ String Py.dquote rest).
Proof. unfold Py.json.encode_str. simpl. now rewrite append_assoc. Qed.

Lemma digit_starts_value (c : ascii) :
  Py.json.digit_of c <> None -> starts_value c = true.
Proof.
  intros H. destruct c as [[] [] [] [] [] [] [] []]; try reflexivity; now elim H.
Qed.

Lemma str_int_head (n : Z) :
  exists c s, Py.str_int n = String c s
              /\ (c = "-"%char \/ Py.json.digit_of c <> None).
Proof.
  destruct n as [|p|p]; unfold Py.str_int.
  - destruct (decimal_head 0) as (c & s & H & Hc). eauto.
  - destruct (decimal_head (Npos p)) as (c & s & H & Hc). eauto.
  - eauto.
Qed.

Lemma dumps_head (v : Py.value) :
  exists c s, Py.json.dumps v = String c s /\ starts_value c = true.
Proof.
  destruct v as [|[]|n|s|items|items]; simpl; try (eexists _, _; split; reflexivity).
  destruct (str_int_head n) as (c & s & H & [->|Hc]); eauto using digit_starts_value.
Qed.

Lemma skip_ws_head (c : ascii) (s : string) :
  starts_value c = true -> Py.json.skip_ws (String c s) = String c s.
Proof.
  unfold starts_value. intros H. simpl.
  destruct (Py.json.is_ws c); [discriminate | reflexivity].
Qed.

Lemma skip_ws_dumps (v : Py.value) (rest : string) :
  Py.json.skip_ws (Py.json.dumps v +:+ rest) = Py.json.dumps v +:+ rest.
Proof.
  destruct (dumps_head v) as (c & s & -> & Hc). now apply skip_ws_head.
Qed.

Lemma parse_value_number (fuel : nat) (n : Z) (rest : string) :
  Py.json.parse_value (S fuel) (Py.str_int n +:+ rest)
  = Py.json.parse_number (Py.str_int n +:+ rest).
Proof.
  destruct (str_int_head n) as (c & s & -> & [->|Hc]); [reflexivity|].
  destruct c as [[] [] [] [] [] [] [] []]; try reflexivity; now elim Hc.
Qed.

Lemma parse_array_S (fuel : nat) (s : string) :
  Py.json.parse_array (S fuel) s
  = match Py.json.parse_value fuel s with
    | Some (v, r) =>
        match Py.json.skip_ws r with
        | String c r' =>
            if Ascii.eqb c "," then
              match Py.json.parse_array fuel (Py.json.skip_ws r') with
              | Some (vs, rest) => Some (v :: vs, rest)
              | None => None
              end
            else if Ascii.eqb c "]" then Some ([v], r')
            else None
        | EmptyString => None
        end
    | None => None
    end.
Proof. reflexivity. Qed.

Lemma parse_object_S (fuel : nat) (k s1 : string) :
  Py.json.parse_object (S fuel) (Py.json.encode_str k +:+ s1)
  = match Py.json.skip_ws s1 with
    | String colon r1 =>
        if Ascii.eqb colon ":" then
          match Py.json.parse_value fuel (Py.json.skip_ws r1) with
          | Some (v, r2) =>
              match Py.json.skip_ws r2 with
              | String c r3 =>
                  if Ascii.eqb c "," then
                    match Py.json.parse_object fuel (Py.json.skip_ws r3) with
                    | Some (kvs, rest) => Some ((k, v) :: kvs, rest)
                    | None => None
                    end
                  else if Ascii.eqb c "}" then Some ([(k, v)], r3)
                  else None
              | EmptyString => None
              end
          | None => None
          end
        else None
    | EmptyString => None
    end.
Proof.
  rewrite encode_str_append.
  change (Py.json.parse_object (S fuel) (String Py.dquote ?x))
    with (match Py.json.scan_string x with
          | Some (k, r) =>
              match Py.json.skip_ws r with
              | String colon r1 =>
                  if Ascii.eqb colon ":" then
                    match Py.json.parse_value fuel (Py.json.skip_ws r1) with
                    | Some (v, r2) =>
                        match Py.json.skip_ws r2 with
                        | String c r3 =>
                            if Ascii.eqb c "," then
                              match Py.json.parse_object fuel (Py.json.skip_ws r3) with
                              | Some (kvs, rest) => Some ((k, v) :: kvs, rest)
                              | None => None
                              end
                            else if Ascii.eqb c "}" then Some ([(k, v)], r3)
                            else None
                        | EmptyString => None
                        end
                    | None => None
                    end
                  else None
              | EmptyString => None
              end
          | None => None
          end).
  now rewrite scan_string_encoded.
Qed.

Lemma join_cons2 (sep p q : string) (rest : list string) :
  Py.join sep (p :: q :: rest) = p +:+ sep +:+ Py.join sep (q :: rest).
Proof. reflexivity. Qed.

Lemma join_head (items : list Py.value) (tail : string) :
  items <> [] ->
  exists c s, Py.join ", " (map Py.json.dumps items) +:+ tail = String c s
              /\ starts_value c = true.
Proof.
  destruct items as [|v [|v' vs]]; [congruence | |]; intros _;
    destruct (dumps_head v) as (c & s & Hv & Hc).
  - simpl. rewrite Hv. simpl. eauto.
  - simpl map. rewrite join_cons2, Hv. simpl. eauto.
Qed.

Lemma dumps_List (items : list Py.value) (rest : string) :
  Py.json.dumps (Py.List items) +:+ rest
  = String "[" (Py.join ", " (map Py.json.dumps items) +:+ String "]" rest).
Proof.
  change (Py.json.dumps (Py.List items))
    with (String "["%char (Py.join ", " (map Py.json.dumps items) +:+ "]")).
  change (String "["%char ?x +:+ ?y) with (String "["%char (x +:+ y)).
  now rewrite append_assoc.
Qed.

Lemma length_dumps_List (items : list Py.value) :
  String.length (Py.json.dumps (Py.List items))
  = (String.length (Py.join ", " (map Py.json.dumps items)) + 2)%nat.
Proof.
  change (Py.json.dumps (Py.List items))
    with (String "["%char (Py.join ", " (map Py.json.dumps items) +:+ "]")).
  simpl String.length. rewrite length_append. simpl. lia.
Qed.

Lemma dumps_Dict (items : list (string * Py.value)) (rest : string) :
  Py.json.dumps (Py.Dict items) +:+ rest
  = String "{" (Py.join ", " (map dumps_item items) +:+ String "}" rest).
Proof.
  change (Py.json.dumps (Py.Dict items))
    with (String "{"%char (Py.join ", " (map dumps_item items) +:+ "}")).
  change (String "{"%char ?x +:+ ?y) with (String "{"%char (x +:+ y)).
  now rewrite append_assoc.
Qed.

Lemma length_dumps_Dict (items : list (string * Py.value)) :
  String.length (Py.json.dumps (Py.Dict items))
  = (String.length (Py.join ", " (map dumps_item items)) + 2)%nat.
Proof.
  change (Py.json.dumps (Py.Dict items))
    with (String "{"%char (Py.join ", " (map dumps_item items) +:+ "}")).
  simpl String.length. rewrite length_append. simpl. lia.
Qed.

Lemma join_items_head (items : list (string * Py.value)) (tail : string) :
  items <> [] ->
  exists s, Py.join ", " (map dumps_item items) +:+ tail = String Py.dquote s.
Proof.
  destruct items as [|kv [|kv' kvs]]; [congruence | |]; intros _.
  - change (Py.join ", " (map dumps_item [kv])) with (dumps_item kv).
    unfold dumps_item. rewrite !append_assoc, encode_str_append. eauto.
  - change (map dumps_item (kv :: kv' :: kvs))
      with (dumps_item kv :: dumps_item kv' :: map dumps_item kvs).
    rewrite join_cons2. unfold dumps_item at 1.
    rewrite !append_assoc, encode_str_append. eauto.
Qed.

Lemma parse_dumps (fuel : nat) :
  (forall v rest,
      (String.length (Py.json.dumps v) < fuel)%nat -> delimits rest = true ->
      Py.json.parse_value fuel (Py.json.dumps v +:+ rest) = Some (v, rest))
  /\ (forall items rest,
      items <> [] ->
      (String.length (Py.join ", " (map Py.json.dumps items)) + 1 < fuel)%nat ->
      Py.json.parse_array fuel (Py.join ", " (map Py.json.dumps items) +:+ String "]" rest)
      = Some (items, rest))
  /\ (forall items rest,
      items <> [] ->
      (String.length (Py.join ", " (map dumps_item items)) + 1 < fuel)%nat ->
      Py.json.parse_object fuel (Py.join ", " (map dumps_item items) +:+ String "}" rest)
      = Some (items, rest)).
Proof.
  induction fuel as [|fuel (IHv & IHa & IHo)].
  { repeat split; intros; lia. }
  split; [|split].
  - (* a value *)
    intros v rest Hlen Hrest.
    destruct v as [|[]|n|s|items|items]; try reflexivity.
    + simpl Py.json.dumps. rewrite parse_value_number. now apply parse_number_int.
    + simpl Py.json.dumps. rewrite encode_str_append.
      change (Py.json.parse_value (S fuel) (String Py.dquote ?x))
        with (match Py.json.scan_string x with
              | Some (str, r) => Some (Py.Str str, r)
              | None => None
              end).
      now rewrite scan_string_encoded.
    + destruct items as [|v vs]; [reflexivity|].
      rewrite dumps_List. rewrite length_dumps_List in Hlen.
      destruct (join_head (v :: vs) (String "]" rest)) as (c & s & Hj & Hc); [discriminate|].
      change (Py.json.parse_value (S fuel) (String "["%char ?x))
        with (match Py.json.skip_ws x with
              | String c1 r1 =>
                  if Ascii.eqb c1 "]" then Some (Py.List [], r1)
                  else match Py.json.parse_array fuel (String c1 r1) with
                       | Some (items, r) => Some (Py.List items, r)
                       | None => None
                       end
              | EmptyString => None
              end).
      rewrite Hj, (skip_ws_head c s Hc).
      unfold starts_value in Hc.
      destruct (Ascii.eqb c "]"); [now rewrite andb_false_r in Hc|].
      rewrite <- Hj, IHa; [reflexivity | discriminate | lia].
    + destruct items as [|kv kvs]; [reflexivity|].
      rewrite dumps_Dict. rewrite length_dumps_Dict in Hlen.
      destruct (join_items_head (kv :: kvs) (String "}" rest)) as (s & Hj); [discriminate|].
      change (Py.json.parse_value (S fuel) (String "{"%char ?x))
        with (match Py.json.skip_ws x with
              | String c1 r1 =>
                  if Ascii.eqb c1 "}" then Some (Py.Dict [], r1)
                  else match Py.json.parse_object fuel (String c1 r1) with
                       | Some (items, r) => Some (Py.Dict items, r)
                       | None => None
                       end
              | EmptyString => None
              end).
      rewrite Hj, (skip_ws_head Py.dquote s eq_refl).
      change (Ascii.eqb Py.dquote "}") with false. cbv iota.
      rewrite <- Hj, IHo; [reflexivity | discriminate | lia].
  - (* the items of an array *)
    intros items rest Hne Hlen. rewrite parse_array_S.
    destruct items as [|v [|v' vs]]; [congruence | |].
    + simpl map in *. simpl Py.join in *.
      rewrite IHv by (reflexivity || lia). reflexivity.
    + change (map Py.json.dumps (v :: v' :: vs))
        with (Py.json.dumps v :: map Py.json.dumps (v' :: vs)) in *.
      change (map Py.json.dumps (v' :: vs))
        with (Py.json.dumps v' :: map Py.json.dumps vs) in Hlen at 1.
      change (map Py.json.dumps (v' :: vs))
        with (Py.json.dumps v' :: map Py.json.dumps vs) at 1.
      rewrite join_cons2 in *.
      change (Py.json.dumps v' :: map Py.json.dumps vs)
        with (map Py.json.dumps (v' :: vs)) in *.
      rewrite !append_assoc. rewrite !length_append in Hlen.
      change (String.length ", ") with 2%nat in Hlen; change (String.length ": ") with 2%nat in Hlen.
      change (", " +:+ ?x) with (String ","%char (String " "%char x)).
      rewrite IHv by (reflexivity || lia).
      eat_separator ","%char.
      destruct (join_head (v' :: vs) (String "]" rest)) as (c & s & Hj & Hc); [discriminate|].
      rewrite Hj, (skip_ws_head c s Hc), <- Hj.
      rewrite IHa; [reflexivity | discriminate | lia].
  - (* the items of an object *)
    intros items rest Hne Hlen.
    destruct items as [|[k v] [|kv' kvs]]; [congruence | |].
    + simpl map in *. simpl Py.join in *. unfold dumps_item in *. simpl fst in *. simpl snd in *.
      rewrite !append_assoc. rewrite parse_object_S.
      change (": " +:+ ?x) with (String ":"%char (String " "%char x)).
      eat_separator ":"%char.
      rewrite skip_ws_dumps.
      rewrite !length_append in Hlen.
      change (String.length ", ") with 2%nat in Hlen; change (String.length ": ") with 2%nat in Hlen.
      rewrite IHv by (reflexivity || lia). reflexivity.
    + change (map dumps_item ((k, v) :: kv' :: kvs))
        with (dumps_item (k, v) :: dumps_item kv' :: map dumps_item kvs) in *.
      rewrite join_cons2 in *.
      change (dumps_item kv' :: map dumps_item kvs) with (map dumps_item (kv' :: kvs)) in *.
      unfold dumps_item at 1. unfold dumps_item at 1 in Hlen.
      simpl fst in *. simpl snd in *.
      rewrite !append_assoc. rewrite parse_object_S.
      change (": " +:+ ?x) with (String ":"%char (String " "%char x)).
      eat_separator ":"%char.
      rewrite skip_ws_dumps.
      rewrite !length_append in Hlen.
      change (String.length ", ") with 2%nat in Hlen; change (String.length ": ") with 2%nat in Hlen.
      change (", " +:+ ?x) with (String ","%char (String " "%char x)).
      rewrite IHv by (reflexivity || lia).
      eat_separator ","%char.
      destruct (join_items_head (kv' :: kvs) (String "}" rest)) as (s & Hj); [discriminate|].
      rewrite Hj, (skip_ws_head Py.dquote s eq_refl), <- Hj.
      rewrite IHo; [reflexivity | discriminate | lia].
Qed.

(** Decoding the document written for a value gives the value back. *)
Lemma loads_dumps (v : Py.value) : Py.json.loads (Py.json.dumps v) = Some v.
Proof.
  unfold Py.json.loads.
  rewrite <- (append_nil_r (Py.json.dumps v)) at 2.
  rewrite skip_ws_dumps.
  destruct (parse_dumps (S (String.length (Py.json.dumps v)))) as (Hv & _).
  rewrite Hv by (reflexivity || lia). reflexivity.
Qed.

(** ** The paths of the bucket lister *)

#[local] Arguments String.append : simpl never.
#[local] Arguments Py.json.dumps : simpl never.
#[local] Arguments Py.json.loads : simpl never.
#[local] Arguments Py.str : simpl never.
#[local] Arguments Py.isoformat : simpl never.
#[local] Arguments Py.truthy : simpl never.
#[local] Arguments Py.or_ : simpl never.

(** A string is taken for true exactly when it is not empty. *)
Lemma truthy_str (s : string) : Py.truthy (Py.Str s) = true <-> s <> "".
Proof.
  unfold Py.truthy. destruct (String.eqb_spec s ""); cbn; split; congruence.
Qed.

(** The body of a response is read back as the document it was written
    from. *)
Lemma body_json_dumps (status : Z) (hs : option (list (string * string))) (doc : Py.value) :
  body_json {| statusCode := status; headers := hs; body := Py.json.dumps doc |} = Some doc.
Proof. unfold body_json. cbn. apply loads_dumps. Qed.

(** An event without the method [get] raises out of the handler. *)
Lemma not_a_dict_raises {C : Type} (event : Py.value) (context : C) (w : S3Handler.World) :
  (forall items, event <> Py.Dict items) ->
  S3Handler.lambda_handler event context w
  = ([Print "Hello World! Starting S3 bucket read operation..."],
     Raise (Exception ("'" +:+ type_name event +:+ "' object has no attribute 'get'"))).
Proof.
  intros Hne. destruct event; try reflexivity. now elim (Hne items).
Qed.

(** Every way the handler ends on a dictionary. *)
Lemma dict_event_paths {C : Type} (items : list (string * Py.value)) (context : C)
    (w : S3Handler.World) :
  let bucket_name := Py.or_ (default Py.None_ (Py.assoc "bucket_name" items))
                            (S3Handler.environ_get w "S3_BUCKET_NAME") in
  let kwargs := {| Bucket := bucket_name; MaxKeys := Some 10; ContinuationToken := None |} in
  let started := Print "Hello World! Starting S3 bucket read operation..." in
  let reading := Print ("Reading from S3 bucket: " +:+ Py.str bucket_name) in
  S3Handler.lambda_handler (Py.Dict items) context w
  = if Py.truthy bucket_name then
      match S3Handler.boto3_client w "s3" with
      | Raise e => ([started; Boto3Client "s3"], Raise e)
      | Return s3 =>
          match s3 kwargs with
          | Return response =>
              let contents := default [] (Contents response) in
              let message := "Hello World! Successfully read from S3 bucket: " +:+ Py.str bucket_name in
              ([started; Boto3Client "s3"; reading; ListObjectsV2 kwargs; Print message],
               Return {| statusCode := 200; headers := None;
                         body := Py.json.dumps
                                   (Py.Dict [("message", Py.Str message);
                                             ("bucket", bucket_name);
                                             ("object_count", Py.Int (Z.of_nat (length contents)));
                                             ("objects", Py.List (map S3Handler.object_summary contents));
                                             ("hello", Py.Str "world")]) |})
          | Raise (ClientError None _) =>
              ([started; Boto3Client "s3"; reading; ListObjectsV2 kwargs],
               Raise (Exception "'Error'"))
          | Raise (ClientError (Some error) _) =>
              match Py.assoc "Code" error with
              | None =>
                  ([started; Boto3Client "s3"; reading; ListObjectsV2 kwargs],
                   Raise (Exception "'Code'"))
              | Some error_code =>
                  match Py.assoc "Message" error with
                  | None =>
                      ([started; Boto3Client "s3"; reading; ListObjectsV2 kwargs],
                       Raise (Exception "'Message'"))
                  | Some error_message =>
                      ([started; Boto3Client "s3"; reading; ListObjectsV2 kwargs;
                        Print ("Error reading from S3 bucket: " +:+ error_code +:+ " - " +:+ error_message)],
                       Return {| statusCode := 500; headers := None;
                                 body := Py.json.dumps
                                           (Py.Dict [("message", Py.Str ("Error reading from S3 bucket: " +:+ error_code));
                                                     ("error", Py.Str error_message);
                                                     ("hello", Py.Str "world")]) |})
                  end
              end
          | Raise (Exception description) =>
              ([started; Boto3Client "s3"; reading; ListObjectsV2 kwargs;
                Print ("Unexpected error: " +:+ description)],
               Return {| statusCode := 500; headers := None;
                         body := Py.json.dumps
                                   (Py.Dict [("message", Py.Str "Unexpected error occurred");
                                             ("error", Py.Str description);
                                             ("hello", Py.Str "world")]) |})
          end
      end
    else
      ([started],
       Return {| statusCode := 400; headers := None;
                 body := Py.json.dumps
                           (Py.Dict [("message", Py.Str "Error: No bucket name provided. Please specify bucket_name in event or S3_BUCKET_NAME environment variable.");
                                     ("hello", Py.Str "world")]) |}).
Proof.
  intros bucket_name kwargs started reading. run_handler. fold bucket_name.
  destruct (Py.truthy bucket_name); [|reflexivity]. cbn.
  destruct (S3Handler.boto3_client w "s3") as [s3|e]; [|reflexivity]. cbn.
  fold kwargs. destruct (s3 kwargs) as [response|[[error|] op|description]]; cbn.
  - destruct (Contents response) as [contents|]; cbn; [rewrite length_map|]; reflexivity.
  - unfold subscript.
    destruct (Py.assoc "Code" error) as [error_code|]; [|reflexivity].
    destruct (Py.assoc "Message" error) as [error_message|]; reflexivity.
  - reflexivity.
  - reflexivity.
Qed.

(** The fixture [bucket_of] keeps to [MaxKeys]. *)
Lemma bucket_of_honours_max_keys (files : list S3Object) : honours_max_keys (bucket_of files).
Proof.
  intros kwargs response n Hcall Hmax. unfold bucket_of in Hcall. rewrite Hmax in Hcall.
  destruct (Z.ltb_spec n 0) as [|Hn]; [discriminate|].
  injection Hcall as <-. cbn. rewrite length_take. lia.
Qed.

(** ** The claims *)

(** *** When a listing is asked for

    The event is a dictionary, a bucket name resolves and [boto3.client]
    gives a client: the handler enters its [try] block and calls
    [list_objects_v2] with [kwargs]. *)

Section ListingAskedFor.

Context {C : Type} (items : list (string * Py.value)) (context : C).
Context (w : S3Handler.World) (s3 : S3Client).

Let bucket_name : Py.value :=
  Py.or_ (default Py.None_ (Py.assoc "bucket_name" items))
         (S3Handler.environ_get w "S3_BUCKET_NAME").

Let kwargs : ListObjectsV2Request :=
  {| Bucket := bucket_name; MaxKeys := Some 10; ContinuationToken := None |}.

Hypothesis resolves : Py.truthy bucket_name = true.
Hypothesis client_built : S3Handler.boto3_client w "s3" = Return s3.


(** C4.  When [list_objects_v2] raises a [ClientError] that carries a
    code and a message ([Code] and [Message] in the [Error] of its
    response, whatever else the provider put there), the handler
    returns [statusCode] 500; the [message] of the body has the
    provider's error code in it, the [error] field is the provider's
    error message as it is, and the message is not the one of the
    branch for other exceptions. *)
Theorem client_error_is_500 (error : list (string * string))
    (error_code error_message operation_name : string) :
  Py.assoc "Code" error = Some error_code ->
  Py.assoc "Message" error = Some error_message ->
  s3 kwargs = Raise (ClientError (Some error) operation_name) ->
  exists trace r,
    S3Handler.lambda_handler (Py.Dict items) context w = (trace, Return r)
    /\ statusCode r = 500
    /\ body_json r
       = Some (Py.Dict [("message", Py.Str ("Error reading from S3 bucket: " +:+ error_code));
                        ("error", Py.Str error_message);
                        ("hello", Py.Str "world")])
    /\ (exists message before after,
           field "message" r = Some (Py.Str message)
           /\ message = before +:+ error_code +:+ after)
    /\ field "error" r = Some (Py.Str error_message)
    /\ field "message" r <> Some (Py.Str "Unexpected error occurred").
Proof.
  intros Hcode Hmessage Hcall.
  pose proof (dict_event_paths items context w) as Hpath. cbv zeta in Hpath.
  fold bucket_name kwargs in Hpath.
  rewrite resolves, client_built, Hcall, Hcode, Hmessage in Hpath.
  eexists _, _. split; [exact Hpath|]. split; [reflexivity|].
  split; [apply body_json_dumps|].
  unfold field. rewrite body_json_dumps. cbn. split; [|split; [reflexivity|]].
  - exists ("Error reading from S3 bucket: " +:+ error_code),
      "Error reading from S3 bucket: ", "".
    split; [reflexivity|]. now rewrite append_nil_r.
  - intros H. injection H as H. discriminate H.
Qed.

(** C5, amended.  When [list_objects_v2] raises an exception that is no
    [ClientError], the handler returns [statusCode] 500 with the fixed
    message [Unexpected error occurred] and an [error] field that is the
    [str] of the exception. *)
Theorem other_exception_is_500 (description : string) :
  s3 kwargs = Raise (Exception description) ->
  exists trace r,
    S3Handler.lambda_handler (Py.Dict items) context w = (trace, Return r)
    /\ statusCode r = 500
    /\ body_json r
       = Some (Py.Dict [("message", Py.Str "Unexpected error occurred");
                        ("error", Py.Str description);
                        ("hello", Py.Str "world")])
    /\ field "message" r = Some (Py.Str "Unexpected error occurred")
    /\ field "error" r = Some (Py.Str description).
Proof.
  intros Hcall.
  pose proof (dict_event_paths items context w) as Hpath. cbv zeta in Hpath.
  fold bucket_name kwargs in Hpath. rewrite resolves, client_built, Hcall in Hpath.
  eexists _, _. split; [exact Hpath|]. split; [reflexivity|].
  split; [apply body_json_dumps|].
  unfold field. rewrite body_json_dumps. split; reflexivity.
Qed.

End ListingAskedFor.


(** [test_s3_client_error]: the provider answers [NoSuchBucket]. *)
Lemma client_error_is_500_witness :
  exists trace r,
    S3Handler.lambda_handler test_event tt (world ∅ (mock_boto (Raise no_such_bucket)))
    = (trace, Return r)
    /\ statusCode r = 500
    /\ field "message" r = Some (Py.Str "Error reading from S3 bucket: NoSuchBucket")
    /\ field "error" r = Some (Py.Str "The specified bucket does not exist").
Proof.
  destruct (client_error_is_500
              [("bucket_name", Py.Str "test-bucket")] tt
              (world ∅ (mock_boto (Raise no_such_bucket)))
              (fun _ => Raise no_such_bucket)
              eq_refl eq_refl
              [("Code", "NoSuchBucket"); ("Message", "The specified bucket does not exist")]
              "NoSuchBucket" "The specified bucket does not exist" "ListObjectsV2"
              eq_refl eq_refl eq_refl)
    as (trace & r & Hrun & Hstatus & Hbody & _ & Herror & _).
  exists trace, r. split; [exact Hrun|]. split; [exact Hstatus|].
  split; [|exact Herror]. unfold field. rewrite Hbody. reflexivity.
Defined.

(** C5, the counterexample.  The message of the branch for other
    exceptions starts with a capital letter: on the fault of
    [test_unexpected_error] it is not the lower-case text of the claim. *)
Lemma generic_message_is_capitalised :
  exists trace r,
    S3Handler.lambda_handler test_event tt
      (world ∅ (mock_boto (Raise (Exception "Unexpected error"))))
    = (trace, Return r)
    /\ field "message" r = Some (Py.Str "Unexpected error occurred")
    /\ field "message" r <> Some (Py.Str "unexpected error occurred").
Proof.
  eexists _, _. split; [reflexivity|].
  unfold field. rewrite body_json_dumps. split; [reflexivity | discriminate].
Qed.

(** [test_unexpected_error] *)
Lemma other_exception_is_500_witness :
  exists trace r,
    S3Handler.lambda_handler test_event tt
      (world ∅ (mock_boto (Raise (Exception "Unexpected error"))))
    = (trace, Return r)
    /\ statusCode r = 500
    /\ field "error" r = Some (Py.Str "Unexpected error").
Proof.
  destruct (other_exception_is_500
              [("bucket_name", Py.Str "test-bucket")] tt
              (world ∅ (mock_boto (Raise (Exception "Unexpected error"))))
              (fun _ => Raise (Exception "Unexpected error"))
              eq_refl eq_refl
              "Unexpected error" eq_refl)
    as (trace & r & Hrun & Hstatus & _ & _ & Herror).
  exists trace, r. auto.
Defined.

(** *** Every invocation *)

(** C2, the counterexample.  The runtime hands the handler the decoded
    payload, which need not be an object: on the empty list,
    [event.get] raises [AttributeError] before the [try] block, and the
    exception leaves the handler although the provider would answer. *)
Lemma list_event_raises :
  S3Handler.lambda_handler (Py.List []) tt
    (world ∅ (mock_boto (Return {| Contents := None |})))
  = ([Print "Hello World! Starting S3 bucket read operation..."],
     Raise (Exception "'list' object has no attribute 'get'")).
Proof. reflexivity. Qed.

(** C2, amended.  The handler returns a response exactly when the event
    is a dictionary and, if a bucket name resolves, [boto3.client] gives
    a client and [list_objects_v2] raises no [ClientError] whose
    response lacks [Error], [Code] or [Message]; it then does so
    whether [list_objects_v2] returns, raises a [ClientError] with both
    or raises another [Exception].  So an exception leaves the handler
    in three ways and no other: from [event.get] and from
    [boto3.client], before the [try] block, and from the subscripts
    [e.response['Error']['Code']] and [e.response['Error']['Message']]
    of the clause [except ClientError], whose [KeyError] the clause
    [except Exception] next to it does not catch. *)
Theorem response_unless_an_exception_leaves {C : Type} (event : Py.value) (context : C)
    (w : S3Handler.World) :
  (exists trace r, S3Handler.lambda_handler event context w = (trace, Return r))
  <-> (exists items,
          event = Py.Dict items
          /\ (Py.truthy (Py.or_ (default Py.None_ (Py.assoc "bucket_name" items))
                                (S3Handler.environ_get w "S3_BUCKET_NAME")) = false
              \/ exists s3,
                   S3Handler.boto3_client w "s3" = Return s3
                   /\ forall Error_ operation_name,
                        s3 {| Bucket := Py.or_ (default Py.None_ (Py.assoc "bucket_name" items))
                                               (S3Handler.environ_get w "S3_BUCKET_NAME");
                              MaxKeys := Some 10; ContinuationToken := None |}
                        = Raise (ClientError Error_ operation_name) ->
                        exists error error_code error_message,
                          Error_ = Some error
                          /\ Py.assoc "Code" error = Some error_code
                          /\ Py.assoc "Message" error = Some error_message)).
Proof.
  split.
  - intros (trace & r & Hrun).
    destruct event as [| | | |l|items];
      try (rewrite not_a_dict_raises in Hrun by discriminate; discriminate).
    exists items. split; [reflexivity|].
    rewrite dict_event_paths in Hrun. cbv zeta in Hrun.
    destruct (Py.truthy _); [right | now left].
    destruct (S3Handler.boto3_client w "s3") as [s3|e]; [|discriminate].
    exists s3. split; [reflexivity|]. intros Error_ operation_name Hraise.
    rewrite Hraise in Hrun. destruct Error_ as [error|]; [|discriminate].
    destruct (Py.assoc "Code" error) as [error_code|] eqn:Hcode; [|discriminate].
    destruct (Py.assoc "Message" error) as [error_message|] eqn:Hmessage; [|discriminate].
    now exists error, error_code, error_message.
  - intros (items & -> & Hok). rewrite dict_event_paths. cbv zeta.
    destruct (Py.truthy _) eqn:Htruthy; [|eauto].
    destruct Hok as [Hfalse | (s3 & -> & Hcarries)]; [discriminate|].
    destruct (s3 _) as [response|[Error_ op|description]] eqn:Hcall; [eauto| |eauto].
    destruct (Hcarries _ _ eq_refl) as (error & error_code & error_message & -> & -> & ->).
    eauto.
Qed.

(** An object as event, a provider that answers [NoSuchBucket] with
    code and message: the handler answers. *)
Lemma response_unless_an_exception_leaves_witness :
  exists trace r,
    S3Handler.lambda_handler test_event tt (world ∅ (mock_boto (Raise no_such_bucket)))
    = (trace, Return r).
Proof.
  apply (proj2 (response_unless_an_exception_leaves test_event tt
                  (world ∅ (mock_boto (Raise no_such_bucket))))).
  exists [("bucket_name", Py.Str "test-bucket")]. split; [reflexivity|].
  right. eexists. split; [reflexivity|].
  intros Error_ operation_name [= <- <-]. eexists _, _, _. repeat split; reflexivity.
Defined.



(** What a returned response is, path by path. *)
Lemma returned_response {C : Type} (event : Py.value) (context : C) (w : S3Handler.World)
    (trace : list effect) (r : Response) :
  S3Handler.lambda_handler event context w = (trace, Return r) ->
  exists items bucket_name,
    event = Py.Dict items
    /\ bucket_name = Py.or_ (default Py.None_ (Py.assoc "bucket_name" items))
                            (S3Handler.environ_get w "S3_BUCKET_NAME")
    /\ headers r = None
    /\ ((Py.truthy bucket_name = false
         /\ trace = [Print "Hello World! Starting S3 bucket read operation..."]
         /\ statusCode r = 400
         /\ exists message,
              body_json r = Some (Py.Dict [("message", message); ("hello", Py.Str "world")]))
        \/ (Py.truthy bucket_name = true
            /\ exists s3 before after,
                 S3Handler.boto3_client w "s3" = Return s3
                 /\ trace = (before
                             ++ ListObjectsV2 {| Bucket := bucket_name; MaxKeys := Some 10;
                                                 ContinuationToken := None |}
                             :: after)%list
                 /\ Forall (fun e => forall kwargs, e <> ListObjectsV2 kwargs)
                           (before ++ after)%list
                 /\ ((statusCode r = 200
                      /\ exists response message,
                           s3 {| Bucket := bucket_name; MaxKeys := Some 10;
                                 ContinuationToken := None |} = Return response
                           /\ body_json r
                              = Some (Py.Dict
                                        [("message", message);
                                         ("bucket", bucket_name);
                                         ("object_count",
                                          Py.Int (Z.of_nat (length (default [] (Contents response)))));
                                         ("objects",
                                          Py.List (map S3Handler.object_summary
                                                       (default [] (Contents response))));
                                         ("hello", Py.Str "world")]))
                     \/ (statusCode r = 500
                         /\ exists message error,
                              body_json r
                              = Some (Py.Dict [("message", message); ("error", error);
                                               ("hello", Py.Str "world")]))))).
Proof.
  intros Hrun.
  destruct event as [| | | |l|items];
    try (rewrite not_a_dict_raises in Hrun by discriminate; discriminate).
  exists items, (Py.or_ (default Py.None_ (Py.assoc "bucket_name" items))
                        (S3Handler.environ_get w "S3_BUCKET_NAME")).
  split; [reflexivity|]. split; [reflexivity|].
  rewrite dict_event_paths in Hrun. cbv zeta in Hrun.
  destruct (Py.truthy _) eqn:Htruthy.
  - destruct (S3Handler.boto3_client w "s3") as [s3|e]; [|discriminate].
    listing_outcome s3; try discriminate;
      injection Hrun as <- <-; (split; [reflexivity|]); right; (split; [reflexivity|]);
      exists s3; eexists [_; _; _], [_]; (split; [reflexivity|]); (split; [reflexivity|]);
      (split; [repeat constructor; discriminate|]).
    + left. split; [reflexivity|]. eexists _, _. split; [exact Hcall | apply body_json_dumps].
    + right. split; [reflexivity|]. eexists _, _. apply body_json_dumps.
    + right. split; [reflexivity|]. eexists _, _. apply body_json_dumps.
  - injection Hrun as <- <-. split; [reflexivity|]. left.
    repeat (split; [reflexivity|]). eexists. apply body_json_dumps.
Qed.

(** C6.  Whatever the event, the environment and the provider: when the
    handler returns a response, on any of its four paths, the body has
    the field [hello] with the value [world]. *)
Theorem hello_world_on_every_response {C : Type} (event : Py.value) (context : C)
    (w : S3Handler.World) (trace : list effect) (r : Response) :
  S3Handler.lambda_handler event context w = (trace, Return r) ->
  field "hello" r = Some (Py.Str "world").
Proof.
  intros Hrun.
  destruct (returned_response event context w trace r Hrun)
    as (items & bucket_name & _ & _ & _ & Hpaths).
  unfold field.
  destruct Hpaths as [(_ & _ & _ & message & ->) | (_ & s3 & before & after & _ & _ & _ & Hbody)].
  - reflexivity.
  - destruct Hbody as [(_ & response & message & _ & ->) | (_ & message & error & ->)];
      reflexivity.
Qed.

(** [test_bucket_name_from_environment]: the name comes from the
    variable, the listing is empty. *)
Lemma hello_world_on_every_response_witness :
  field "hello"
    {| statusCode := 200; headers := None;
       body := Py.json.dumps
                 (Py.Dict [("message", Py.Str "Hello World! Successfully read from S3 bucket: test-bucket-env");
                           ("bucket", Py.Str "test-bucket-env");
                           ("object_count", Py.Int 0);
                           ("objects", Py.List []);
                           ("hello", Py.Str "world")]) |}
  = Some (Py.Str "world").
Proof.
  apply (hello_world_on_every_response (Py.Dict []) tt
           (world {[ "S3_BUCKET_NAME" := "test-bucket-env" ]}
                  (mock_boto (Return {| Contents := Some [] |})))
           [Print "Hello World! Starting S3 bucket read operation...";
            Boto3Client "s3";
            Print "Reading from S3 bucket: test-bucket-env";
            ListObjectsV2 {| Bucket := Py.Str "test-bucket-env"; MaxKeys := Some 10;
                             ContinuationToken := None |};
            Print "Hello World! Successfully read from S3 bucket: test-bucket-env"]).
  vm_compute. reflexivity.
Defined.

(** C7, the counterexample.  The handler takes the listing as the
    provider gives it: from a client that answers with eleven entries
    the response has eleven objects. *)
Lemma eleven_objects_listed :
  exists trace r objects,
    S3Handler.lambda_handler test_event tt
      (world ∅ (mock_boto (Return {| Contents := Some eleven_files |})))
    = (trace, Return r)
    /\ statusCode r = 200
    /\ field "objects" r = Some (Py.List objects)
    /\ length objects = 11%nat
    /\ field "object_count" r = Some (Py.Int 11).
Proof.
  eexists _, _, _. split; [reflexivity|]. split; [reflexivity|].
  unfold field. rewrite body_json_dumps. repeat split; reflexivity.
Qed.

(** C7, amended.  In every invocation the handler asks the provider for
    at most one listing, with [MaxKeys] 10 and no continuation token.
    The [objects] of a response are as many as the entries of the
    listing the provider returned to that call, so they are at most 10
    whenever the provider keeps to [MaxKeys]. *)
Theorem asks_for_ten_and_relays_listing {C : Type} (event : Py.value) (context : C)
    (w : S3Handler.World) (trace : list effect) (result : outcome Response) :
  S3Handler.lambda_handler event context w = (trace, result) ->
  (listing_calls trace = []
   \/ exists bucket_name,
        listing_calls trace
        = [ {| Bucket := bucket_name; MaxKeys := Some 10; ContinuationToken := None |} ])
  /\ (forall r objects,
         result = Return r ->
         field "objects" r = Some (Py.List objects) ->
         exists s3 kwargs response,
           S3Handler.boto3_client w "s3" = Return s3
           /\ listing_calls trace = [kwargs]
           /\ s3 kwargs = Return response
           /\ length objects = length (default [] (Contents response))
           /\ (honours_max_keys s3 -> (length objects <= 10)%nat)).
Proof.
  intros Hrun.
  destruct event as [| | | |l|items];
    try (rewrite not_a_dict_raises in Hrun by discriminate;
         injection Hrun as <- <-; split; [now left | discriminate]).
  rewrite dict_event_paths in Hrun. cbv zeta in Hrun.
  destruct (Py.truthy _).
  - destruct (S3Handler.boto3_client w "s3") as [s3|e];
      [|injection Hrun as <- <-; split; [now left | discriminate]].
    listing_outcome s3;
      injection Hrun as <- <-; (split; [right; eexists; reflexivity|]);
      try discriminate;
      intros r objects [= <-]; unfold field; rewrite body_json_dumps; cbn;
      try discriminate.
    intros [= <-]. exists s3. eexists _, response.
    split; [reflexivity|]. split; [reflexivity|]. split; [exact Hcall|].
    split; [apply length_map|].
    intros Hkeeps. rewrite length_map.
    specialize (Hkeeps _ _ 10 Hcall eq_refl). lia.
  - injection Hrun as <- <-. split; [now left|].
    intros r objects [= <-]. unfold field. rewrite body_json_dumps. discriminate.
Qed.

(** A bucket of eleven files behind a client that keeps to [MaxKeys]:
    ten objects are listed. *)
Lemma asks_for_ten_and_relays_listing_witness :
  exists r objects,
    snd (S3Handler.lambda_handler test_event tt
           (world ∅ (fun _ => Return (bucket_of eleven_files))))
    = Return r
    /\ field "objects" r = Some (Py.List objects)
    /\ (length objects <= 10)%nat.
Proof.
  destruct (asks_for_ten_and_relays_listing test_event tt
              (world ∅ (fun _ => Return (bucket_of eleven_files))) _ _ eq_refl)
    as (_ & Hobjects).
  eexists _, _. split; [reflexivity|].
  assert (Hfield : field "objects"
                     {| statusCode := 200; headers := None;
                        body := Py.json.dumps
                                  (Py.Dict [("message", Py.Str "Hello World! Successfully read from S3 bucket: test-bucket");
                                            ("bucket", Py.Str "test-bucket");
                                            ("object_count", Py.Int 10);
                                            ("objects", Py.List (map S3Handler.object_summary
                                                                     (take 10 eleven_files)));
                                            ("hello", Py.Str "world")]) |}
                   = Some (Py.List (map S3Handler.object_summary (take 10 eleven_files)))).
  { unfold field. rewrite body_json_dumps. reflexivity. }
  split; [exact Hfield|].
  destruct (Hobjects _ _ eq_refl Hfield) as (s3 & kwargs & response & [= <-] & _ & _ & _ & Hbound).
  apply Hbound. exact (bucket_of_honours_max_keys eleven_files).
Defined.

(** C8, the counterexample.  The responses of the bucket lister are
    dictionaries with [statusCode] and [body] alone: the response to an
    empty event has no headers, so no [Content-Type] either. *)
Lemma bucket_lister_sets_no_headers :
  exists trace r,
    S3Handler.lambda_handler (Py.Dict []) tt (world ∅ no_client) = (trace, Return r)
    /\ statusCode r = 400
    /\ headers r = None.
Proof. eexists _, _. repeat split; reflexivity. Qed.

(** C8, amended.  Every response of the greeting handler carries the
    headers [Content-Type: application/json] and
    [Access-Control-Allow-Origin: *], without any switch to turn the
    second off; every response of the bucket lister, on each of its
    paths, carries no headers at all. *)
Theorem headers_of_the_two_handlers :
  (forall (event : Py.value) (context : HelloHandler.Context) (now : Py.datetime)
          (trace : list effect) (r : Response),
      HelloHandler.lambda_handler event context now = (trace, Return r) ->
      exists hs,
        headers r = Some hs
        /\ Py.assoc "Content-Type" hs = Some "application/json"
        /\ Py.assoc "Access-Control-Allow-Origin" hs = Some "*"
        /\ Py.keys hs = ["Content-Type"; "Access-Control-Allow-Origin"])
  /\ (forall (C : Type) (event : Py.value) (context : C) (w : S3Handler.World)
             (trace : list effect) (r : Response),
         S3Handler.lambda_handler event context w = (trace, Return r) ->
         headers r = None).
Proof.
  split.
  - intros event context now trace r Hrun.
    unfold HelloHandler.lambda_handler, HelloHandler.attribute_or, HelloHandler.getattr in Hrun.
    destruct event as [| | | |l|items]; try discriminate.
    cbn in Hrun.
    destruct context as [|class_name attributes]; cbn in Hrun.
    + injection Hrun as _ <-. eexists. repeat split; reflexivity.
    + destruct (Py.assoc "function_name" attributes); cbn in Hrun; [|discriminate].
      destruct (Py.assoc "request_id" attributes); cbn in Hrun; [|discriminate].
      injection Hrun as _ <-. eexists. repeat split; reflexivity.
  - intros C event context w trace r Hrun.
    now destruct (returned_response event context w trace r Hrun) as (_ & _ & _ & _ & Hnone & _).
Qed.

(** The greeting handler called without a context, as in a local run. *)
Lemma headers_of_the_two_handlers_witness :
  exists hs,
    headers {| statusCode := 200;
               headers := Some [("Content-Type", "application/json");
                                ("Access-Control-Allow-Origin", "*")];
               body := Py.json.dumps
                         (Py.Dict [("message", Py.Str "Hello, GitHub User!");
                                   ("timestamp", Py.Str "2024-01-01T12:00:00");
                                   ("function_name", Py.Str "local");
                                   ("request_id", Py.Str "N/A")]) |}
    = Some hs
    /\ Py.assoc "Content-Type" hs = Some "application/json"
    /\ Py.assoc "Access-Control-Allow-Origin" hs = Some "*"
    /\ Py.keys hs = ["Content-Type"; "Access-Control-Allow-Origin"].
Proof.
  apply (proj1 headers_of_the_two_handlers
           (Py.Dict [("name", Py.Str "GitHub User")]) HelloHandler.Falsy
           (naive 2024 1 1 12 0 0)
           [LogInfo ("Received event: " +:+ dq "{'name': 'GitHub User'}");
            LogInfo "Returning message: Hello, GitHub User!"]).
  vm_compute. reflexivity.
Defined.

(** C9.  The response is a function of what the handler reads: two
    invocations on the same event, in environments that agree on
    [S3_BUCKET_NAME] and with [boto3.client] behaving alike, end alike,
    with the same effects and the same response or exception, whatever
    the two context arguments and the other variables are. *)
Theorem same_inputs_same_response {C C' : Type} (event : Py.value)
    (context : C) (context' : C') (w w' : S3Handler.World) :
  S3Handler.environ w !! "S3_BUCKET_NAME" = S3Handler.environ w' !! "S3_BUCKET_NAME" ->
  same_behaviour (S3Handler.boto3_client w "s3") (S3Handler.boto3_client w' "s3") ->
  S3Handler.lambda_handler event context w = S3Handler.lambda_handler event context' w'.
Proof.
  intros Henv Hsame.
  destruct event as [| | | |l|items];
    try (rewrite !not_a_dict_raises by discriminate; reflexivity).
  rewrite !dict_event_paths. cbv zeta.
  unfold S3Handler.environ_get. rewrite <- Henv.
  destruct (Py.truthy _); [|reflexivity].
  unfold same_behaviour in Hsame.
  destruct (S3Handler.boto3_client w "s3") as [s3|e],
           (S3Handler.boto3_client w' "s3") as [s3'|e']; try contradiction.
  - now rewrite Hsame.
  - now rewrite Hsame.
Qed.

(** Two invocations that differ in the context argument and in a
    variable the handler does not read. *)
Lemma same_inputs_same_response_witness :
  S3Handler.lambda_handler test_event tt
    (world ∅ (mock_boto (Return {| Contents := Some two_files |})))
  = S3Handler.lambda_handler test_event (Py.Dict [])
      (world {[ "AWS_REGION" := "eu-west-1" ]}
             (mock_boto (Return {| Contents := Some two_files |}))).
Proof.
  apply same_inputs_same_response.
  - reflexivity.
  - intros kwargs. reflexivity.
Defined.

(** C10.  The body of a returned response has the fields [bucket],
    [object_count] and [objects] if and only if the [statusCode] is 200.
    The fields of the body are [message], [bucket], [object_count],
    [objects], [hello] on 200; [message], [hello] on 400; [message],
    [error], [hello] on 500; and no other status is returned. *)
Theorem manifest_fields_only_on_200 {C : Type} (event : Py.value) (context : C)
    (w : S3Handler.World) (trace : list effect) (r : Response) :
  S3Handler.lambda_handler event context w = (trace, Return r) ->
  exists doc,
    body_json r = Some (Py.Dict doc)
    /\ ((statusCode r = 200
         /\ Py.keys doc = ["message"; "bucket"; "object_count"; "objects"; "hello"])
        \/ (statusCode r = 400 /\ Py.keys doc = ["message"; "hello"])
        \/ (statusCode r = 500 /\ Py.keys doc = ["message"; "error"; "hello"]))
    /\ (field "bucket" r <> None <-> statusCode r = 200)
    /\ (field "object_count" r <> None <-> statusCode r = 200)
    /\ (field "objects" r <> None <-> statusCode r = 200).
Proof.
  intros Hrun.
  destruct (returned_response event context w trace r Hrun)
    as (items & bucket_name & _ & _ & _ & Hpaths).
  unfold field.
  destruct Hpaths
    as [(_ & _ & Hstatus & message & Hbody)
       | (_ & s3 & before & after & _ & _ & _
          & [(Hstatus & response & message & _ & Hbody)
            | (Hstatus & message & error & Hbody)])];
    rewrite Hbody, Hstatus; eexists; (split; [reflexivity|]); cbn.
  - split; [right; left; now split|]. repeat split; intros; congruence || lia || discriminate.
  - split; [left; now split|]. repeat split; intros; congruence || lia || discriminate.
  - split; [right; right; now split|]. repeat split; intros; congruence || lia || discriminate.
Qed.

(** [test_empty_bucket]: a response of the provider without [Contents]. *)
Lemma manifest_fields_only_on_200_witness :
  exists r,
    snd (S3Handler.lambda_handler (Py.Dict [("bucket_name", Py.Str "empty-bucket")]) tt
           (world ∅ (mock_boto (Return {| Contents := None |}))))
    = Return r
    /\ statusCode r = 200
    /\ field "objects" r <> None.
Proof.
  eexists. split; [reflexivity|]. split; [reflexivity|].
  destruct (manifest_fields_only_on_200
              (Py.Dict [("bucket_name", Py.Str "empty-bucket")]) tt
              (world ∅ (mock_boto (Return {| Contents := None |}))) _ _ eq_refl)
    as (doc & _ & _ & _ & _ & Hobjects).
  apply Hobjects. reflexivity.
Defined.

(** ** The scenarios of the test suite, run on the embedding *)

Example test_successful_s3_read :
  snd (S3Handler.lambda_handler test_event (Py.Dict [])
         (world ∅ (mock_boto (Return {| Contents := Some two_files |}))))
  = Return {| statusCode := 200; headers := None;
              body := dq "{'message': 'Hello World! Successfully read from S3 bucket: test-bucket', 'bucket': 'test-bucket', 'object_count': 2, 'objects': [{'key': 'file1.txt', 'size': 1024, 'last_modified': '2024-01-01T12:00:00'}, {'key': 'file2.txt', 'size': 2048, 'last_modified': '2024-01-02T12:00:00'}], 'hello': 'world'}" |}.
Proof. vm_compute. reflexivity. Qed.

Example test_missing_bucket_name :
  S3Handler.lambda_handler (Py.Dict []) (Py.Dict []) (world ∅ no_client)
  = ([Print "Hello World! Starting S3 bucket read operation..."],
     Return {| statusCode := 400; headers := None;
               body := dq "{'message': 'Error: No bucket name provided. Please specify bucket_name in event or S3_BUCKET_NAME environment variable.', 'hello': 'world'}" |}).
Proof. vm_compute. reflexivity. Qed.

Example test_empty_bucket :
  snd (S3Handler.lambda_handler (Py.Dict [("bucket_name", Py.Str "empty-bucket")]) (Py.Dict [])
         (world ∅ (mock_boto (Return {| Contents := None |}))))
  = Return {| statusCode := 200; headers := None;
              body := dq "{'message': 'Hello World! Successfully read from S3 bucket: empty-bucket', 'bucket': 'empty-bucket', 'object_count': 0, 'objects': [], 'hello': 'world'}" |}.
Proof. vm_compute. reflexivity. Qed.

Example test_s3_client_error :
  snd (S3Handler.lambda_handler test_event (Py.Dict [])
         (world ∅ (mock_boto (Raise no_such_bucket))))
  = Return {| statusCode := 500; headers := None;
              body := dq "{'message': 'Error reading from S3 bucket: NoSuchBucket', 'error': 'The specified bucket does not exist', 'hello': 'world'}" |}.
Proof. vm_compute. reflexivity. Qed.

Example test_unexpected_error :
  snd (S3Handler.lambda_handler test_event (Py.Dict [])
         (world ∅ (mock_boto (Raise (Exception "Unexpected error")))))
  = Return {| statusCode := 500; headers := None;
              body := dq "{'message': 'Unexpected error occurred', 'error': 'Unexpected error', 'hello': 'world'}" |}.
Proof. vm_compute. reflexivity. Qed.

(** A [ClientError] built from an empty response, as
    [ClientError({}, 'ListObjectsV2')]: the subscript
    [e.response['Error']] raises, and its [KeyError] leaves the handler
    after the listing was asked for. *)
Example client_error_without_error :
  S3Handler.lambda_handler test_event (Py.Dict [])
    (world ∅ (mock_boto (Raise (ClientError None "ListObjectsV2"))))
  = ([Print "Hello World! Starting S3 bucket read operation...";
      Boto3Client "s3";
      Print "Reading from S3 bucket: test-bucket";
      ListObjectsV2 {| Bucket := Py.Str "test-bucket"; MaxKeys := Some 10;
                       ContinuationToken := None |}],
     Raise (Exception "'Error'")).
Proof. vm_compute. reflexivity. Qed.

(** A code without a message: the second subscript raises. *)
Example client_error_without_message :
  snd (S3Handler.lambda_handler test_event (Py.Dict [])
         (world ∅ (mock_boto (Raise (ClientError (Some [("Code", "AccessDenied")])
                                                 "ListObjectsV2")))))
  = Raise (Exception "'Message'").
Proof. vm_compute. reflexivity. Qed.

(** The provider names the bucket in its error next to the code and the
    message: the handler reads the two and answers. *)
Example client_error_with_more_keys :
  snd (S3Handler.lambda_handler test_event (Py.Dict [])
         (world ∅ (mock_boto (Raise (ClientError
                                       (Some [("Code", "NoSuchBucket");
                                              ("Message", "The specified bucket does not exist");
                                              ("BucketName", "test-bucket")])
                                       "ListObjectsV2")))))
  = Return {| statusCode := 500; headers := None;
              body := dq "{'message': 'Error reading from S3 bucket: NoSuchBucket', 'error': 'The specified bucket does not exist', 'hello': 'world'}" |}.
Proof. vm_compute. reflexivity. Qed.

(** A bucket name that is no string is passed on as it is; a client that
    answers all the same gets it written into the response. *)
Example numeric_bucket_name :
  snd (S3Handler.lambda_handler (Py.Dict [("bucket_name", Py.Int 7)]) (Py.Dict [])
         (world ∅ (mock_boto (Return {| Contents := None |}))))
  = Return {| statusCode := 200; headers := None;
              body := dq "{'message': 'Hello World! Successfully read from S3 bucket: 7', 'bucket': 7, 'object_count': 0, 'objects': [], 'hello': 'world'}" |}.
Proof. vm_compute. reflexivity. Qed.

(** An empty [bucket_name] falls back on the variable. *)
Example empty_name_falls_back :
  listing_calls
    (fst (S3Handler.lambda_handler (Py.Dict [("bucket_name", Py.Str "")]) (Py.Dict [])
            (world {[ "S3_BUCKET_NAME" := "test-bucket-env" ]}
                   (mock_boto (Return {| Contents := Some [] |})))))
  = [ {| Bucket := Py.Str "test-bucket-env"; MaxKeys := Some 10; ContinuationToken := None |} ].
Proof. vm_compute. reflexivity. Qed.

Example loads_reads_blanks_and_escapes :
  Py.json.loads (dq " { 'a' : [1, -20, null, true], 'bA\n' : 'x' } ")
  = Some (Py.Dict [("a", Py.List [Py.Int 1; Py.Int (-20); Py.None_; Py.Bool true]);
                   ("bA" +:+ String (ascii_of_N 10) "", Py.Str "x")]).
Proof. vm_compute. reflexivity. Qed.

Example isoformat_with_offset :
  Py.isoformat {| Py.year := 2024; Py.month := 3; Py.day := 9; Py.hour := 7; Py.minute := 5;
                  Py.second := 1; Py.microsecond := 250; Py.utcoffset := Some 0 |}
  = "2024-03-09T07:05:01.000250+00:00".
Proof. vm_compute. reflexivity. Qed.

Example isoformat_with_negative_offset :
  Py.isoformat {| Py.year := 2024; Py.month := 3; Py.day := 9; Py.hour := 7; Py.minute := 5;
                  Py.second := 1; Py.microsecond := 0; Py.utcoffset := Some (-19807000000) |}
  = "2024-03-09T07:05:01-05:30:07".
Proof. vm_compute. reflexivity. Qed.

Example dumps_escapes :
  Py.json.dumps
    (Py.Dict [("a", Py.List [Py.Int 1; Py.Int (-20); Py.None_; Py.Bool true]);
              ("b" +:+ String (ascii_of_N 127) (String (ascii_of_N 10) (String (ascii_of_N 1)
                 (String (ascii_of_N 233) (String Py.dquote (String Py.backslash "/"))))),
               Py.Str "x")])
  = dq "{'a': [1, -20, null, true], 'b\u007f\n\u0001\u00e9\'\\/': 'x'}".
Proof. vm_compute. reflexivity. Qed.

Example str_of_a_list :
  Py.str (Py.List [Py.Str "a'b"; Py.Dict [("k", Py.None_)]; Py.Bool true; Py.Int 7])
  = "[" +:+ String Py.dquote "a'b" +:+ String Py.dquote ", {'k': None}, True, 7]".
Proof. vm_compute. reflexivity. Qed.

Example repr_of_unprintable :
  Py.repr (Py.Str (String (ascii_of_N 127) (String (ascii_of_N 160) (String (ascii_of_N 173)
                     (String (ascii_of_N 1) (String (ascii_of_N 9) ""))))))
  = "'\x7f\xa0\xad\x01\t'".
Proof. vm_compute. reflexivity. Qed.

Example loads_rejects :
  map Py.json.loads ["01"; "[1,]"; "-"; dq "{'a':1,}"; "1.5e3"]
  = [None; None; None; None; None].
Proof. vm_compute. reflexivity. Qed.

(** * Beyond the claims *)

(** ** The paths of the greeting handler *)

(** An event without the method [get] is logged, then [event.get]
    raises. *)
Lemma greeting_not_a_dict (event : Py.value) (context : HelloHandler.Context)
    (now : Py.datetime) :
  (forall items, event <> Py.Dict items) ->
  HelloHandler.lambda_handler event context now
  = ([LogInfo ("Received event: " +:+ Py.json.dumps event)],
     Raise (Exception ("'" +:+ type_name event +:+ "' object has no attribute 'get'"))).
Proof.
  intros Hne. destruct event; try reflexivity. now elim (Hne items).
Qed.

(** Every way the greeting handler ends on a dictionary. *)
Lemma greeting_paths (items : list (string * Py.value)) (context : HelloHandler.Context)
    (now : Py.datetime) :
  let name := default (Py.Str "World") (Py.assoc "name" items) in
  let message := "Hello, " +:+ Py.str name +:+ "!" in
  let logged := [LogInfo ("Received event: " +:+ Py.json.dumps (Py.Dict items));
                 LogInfo ("Returning message: " +:+ message)] in
  let response function_name request_id :=
    {| statusCode := 200;
       headers := Some [("Content-Type", "application/json");
                        ("Access-Control-Allow-Origin", "*")];
       body := Py.json.dumps (Py.Dict [("message", Py.Str message);
                                       ("timestamp", Py.Str (Py.isoformat now));
                                       ("function_name", function_name);
                                       ("request_id", request_id)]) |} in
  HelloHandler.lambda_handler (Py.Dict items) context now
  = match context with
    | HelloHandler.Falsy => (logged, Return (response (Py.Str "local") (Py.Str "N/A")))
    | HelloHandler.Object class_name attributes =>
        match Py.assoc "function_name" attributes with
        | None =>
            (logged,
             Raise (Exception ("'" +:+ class_name
                               +:+ "' object has no attribute 'function_name'")))
        | Some function_name =>
            match Py.assoc "request_id" attributes with
            | None =>
                (logged,
                 Raise (Exception ("'" +:+ class_name
                                   +:+ "' object has no attribute 'request_id'")))
            | Some request_id => (logged, Return (response function_name request_id))
            end
        end
    end.
Proof.
  intros name message logged response. run_greeting.
  destruct context as [|class_name attributes]; [reflexivity|]. cbn.
  destruct (Py.assoc "function_name" attributes); cbn; [|reflexivity].
  destruct (Py.assoc "request_id" attributes); reflexivity.
Qed.

(** The response of the greeting handler and what it has logged. *)
Lemma greeting_returned (items : list (string * Py.value)) (context : HelloHandler.Context)
    (now : Py.datetime) (trace : list effect) (r : Response) :
  HelloHandler.lambda_handler (Py.Dict items) context now = (trace, Return r) ->
  let message := "Hello, " +:+ Py.str (default (Py.Str "World") (Py.assoc "name" items))
                 +:+ "!" in
  exists function_name request_id,
    r = {| statusCode := 200;
           headers := Some [("Content-Type", "application/json");
                            ("Access-Control-Allow-Origin", "*")];
           body := Py.json.dumps (Py.Dict [("message", Py.Str message);
                                           ("timestamp", Py.Str (Py.isoformat now));
                                           ("function_name", function_name);
                                           ("request_id", request_id)]) |}
    /\ trace = [LogInfo ("Received event: " +:+ Py.json.dumps (Py.Dict items));
                LogInfo ("Returning message: " +:+ message)]
    /\ match context with
       | HelloHandler.Falsy =>
           function_name = Py.Str "local" /\ request_id = Py.Str "N/A"
       | HelloHandler.Object _ attributes =>
           Py.assoc "function_name" attributes = Some function_name
           /\ Py.assoc "request_id" attributes = Some request_id
       end.
Proof.
  intros Hrun message. rewrite greeting_paths in Hrun. cbv zeta in Hrun.
  destruct context as [|class_name attributes].
  - injection Hrun as <- <-. eexists _, _. repeat split; reflexivity.
  - destruct (Py.assoc "function_name" attributes) as [function_name|]; [|discriminate].
    destruct (Py.assoc "request_id" attributes) as [request_id|]; [|discriminate].
    injection Hrun as <- <-. exists function_name, request_id. repeat split; reflexivity.
Qed.

(** ** The greeting handler *)

(** X1.  The greeting handler returns a response exactly when the event
    is a dictionary and the context is either falsy or an object that has
    both attributes [function_name] and [request_id]. *)
Theorem greeting_answers_iff (event : Py.value) (context : HelloHandler.Context)
    (now : Py.datetime) :
  (exists trace r, HelloHandler.lambda_handler event context now = (trace, Return r))
  <-> ((exists items, event = Py.Dict items)
       /\ match context with
          | HelloHandler.Falsy => True
          | HelloHandler.Object _ attributes =>
              Py.assoc "function_name" attributes <> None
              /\ Py.assoc "request_id" attributes <> None
          end).
Proof.
  split.
  - intros (trace & r & Hrun).
    destruct event as [| | | |l|items];
      try (rewrite greeting_not_a_dict in Hrun by discriminate; discriminate).
    split; [eauto|]. rewrite greeting_paths in Hrun. cbv zeta in Hrun.
    destruct context as [|class_name attributes]; [exact I|].
    destruct (Py.assoc "function_name" attributes); [|discriminate].
    destruct (Py.assoc "request_id" attributes); [|discriminate].
    split; discriminate.
  - intros ((items & ->) & Hcontext). rewrite greeting_paths. cbv zeta.
    destruct context as [|class_name attributes]; [eauto|].
    destruct Hcontext as (Hname & Hid).
    destruct (Py.assoc "function_name" attributes); [|congruence].
    destruct (Py.assoc "request_id" attributes); [eauto | congruence].
Qed.

(** The context of the local run: an object with both attributes. *)
Lemma greeting_answers_iff_witness :
  exists trace r,
    HelloHandler.lambda_handler (Py.Dict [("name", Py.Str "GitHub User")])
      (HelloHandler.Object "MockContext"
         [("function_name", Py.Str "HelloWorldLambda");
          ("request_id", Py.Str "local-test-request-id")])
      (naive 2024 1 1 12 0 0)
    = (trace, Return r).
Proof.
  apply (proj2 (greeting_answers_iff _ _ _)).
  split; [eexists; reflexivity|]. split; discriminate.
Defined.

(** X2.  The greeting handler has no error response: when it fails, an
    [AttributeError] leaves it.  For an event that is no dictionary this
    is the one of [event.get], raised when only the event has been
    logged; for a context object it names the first of [function_name]
    and [request_id] the object lacks, and is raised after both lines
    have been logged. *)
Theorem greeting_failures (event : Py.value) (context : HelloHandler.Context)
    (now : Py.datetime) (trace : list effect) (e : exn) :
  HelloHandler.lambda_handler event context now = (trace, Raise e) ->
  ((forall items, event <> Py.Dict items)
   /\ trace = [LogInfo ("Received event: " +:+ Py.json.dumps event)]
   /\ e = Exception ("'" +:+ type_name event +:+ "' object has no attribute 'get'"))
  \/ (exists items class_name attributes missing line,
         event = Py.Dict items
         /\ context = HelloHandler.Object class_name attributes
         /\ trace = [LogInfo ("Received event: " +:+ Py.json.dumps event); LogInfo line]
         /\ e = Exception ("'" +:+ class_name +:+ "' object has no attribute '"
                           +:+ missing +:+ "'")
         /\ Py.assoc missing attributes = None
         /\ (missing = "function_name"
             \/ (missing = "request_id" /\ Py.assoc "function_name" attributes <> None))).
Proof.
  intros Hrun.
  destruct event as [| | | |l|items];
    try (rewrite greeting_not_a_dict in Hrun by discriminate;
         injection Hrun as <- <-; left; repeat split; discriminate).
  right. rewrite greeting_paths in Hrun. cbv zeta in Hrun.
  destruct context as [|class_name attributes]; [discriminate|].
  destruct (Py.assoc "function_name" attributes) eqn:Hname.
  - destruct (Py.assoc "request_id" attributes) eqn:Hid; [discriminate|].
    injection Hrun as <- <-.
    exists items, class_name, attributes, "request_id". eexists.
    repeat split; try reflexivity; [exact Hid|]. right. split; [reflexivity | congruence].
  - injection Hrun as <- <-.
    exists items, class_name, attributes, "function_name". eexists.
    repeat split; try reflexivity; [exact Hname|]. now left.
Qed.

(** A context object that names its request [aws_request_id]. *)
Lemma greeting_failures_witness :
  exists trace,
    HelloHandler.lambda_handler (Py.Dict [])
      (HelloHandler.Object "LambdaContext"
         [("function_name", Py.Str "hello"); ("aws_request_id", Py.Str "1-2-3")])
      (naive 2024 1 1 12 0 0)
    = (trace, Raise (Exception "'LambdaContext' object has no attribute 'request_id'"))
    /\ length trace = 2%nat.
Proof.
  eexists. split; [reflexivity|].
  destruct (greeting_failures (Py.Dict [])
              (HelloHandler.Object "LambdaContext"
                 [("function_name", Py.Str "hello"); ("aws_request_id", Py.Str "1-2-3")])
              (naive 2024 1 1 12 0 0) _ _ eq_refl)
    as [(Hne & _) | (items & class_name & attributes & missing & line & _ & _ & -> & _)].
  - now elim (Hne []).
  - reflexivity.
Defined.

(** X3.  Every response of the greeting handler has [statusCode] 200 and
    a body that reads back as the document with the fields [message],
    [timestamp], [function_name], [request_id], in this order and no
    other: the greeting of the name, the [isoformat] of the clock, and
    the two attributes of the context, or [local] and [N/A] when the
    context is falsy.  It has no [hello] marker and no [error] field. *)
Theorem greeting_response_document (items : list (string * Py.value))
    (context : HelloHandler.Context) (now : Py.datetime) (trace : list effect)
    (r : Response) :
  HelloHandler.lambda_handler (Py.Dict items) context now = (trace, Return r) ->
  exists function_name request_id,
    statusCode r = 200
    /\ body_json r
       = Some (Py.Dict [("message",
                         Py.Str ("Hello, "
                                 +:+ Py.str (default (Py.Str "World") (Py.assoc "name" items))
                                 +:+ "!"));
                        ("timestamp", Py.Str (Py.isoformat now));
                        ("function_name", function_name);
                        ("request_id", request_id)])
    /\ match context with
       | HelloHandler.Falsy =>
           function_name = Py.Str "local" /\ request_id = Py.Str "N/A"
       | HelloHandler.Object _ attributes =>
           Py.assoc "function_name" attributes = Some function_name
           /\ Py.assoc "request_id" attributes = Some request_id
       end
    /\ field "hello" r = None
    /\ field "error" r = None.
Proof.
  intros Hrun.
  destruct (greeting_returned items context now trace r Hrun)
    as (function_name & request_id & -> & _ & Hcontext).
  exists function_name, request_id. split; [reflexivity|].
  unfold field. rewrite body_json_dumps. repeat split; try reflexivity; exact Hcontext.
Qed.

(** The event of the local run, without a context. *)
Lemma greeting_response_document_witness :
  exists r,
    snd (HelloHandler.lambda_handler (Py.Dict [("name", Py.Str "GitHub User")])
           HelloHandler.Falsy (naive 2024 1 1 12 0 0))
    = Return r
    /\ field "message" r = Some (Py.Str "Hello, GitHub User!")
    /\ field "function_name" r = Some (Py.Str "local").
Proof.
  eexists. split; [reflexivity|].
  destruct (greeting_response_document [("name", Py.Str "GitHub User")]
              HelloHandler.Falsy (naive 2024 1 1 12 0 0) _ _ eq_refl)
    as (function_name & request_id & _ & Hbody & (-> & ->) & _).
  unfold field. rewrite Hbody. split; reflexivity.
Defined.

(** X4.  The default [World] stands for a missing key only.  An event
    without [name] is answered like the same event with the name
    [World]; a [name] that is present is greeted as it is written by
    [str], so a null one gives [Hello, None!] and an empty one
    [Hello, !]. *)
Theorem greeting_default_name (items : list (string * Py.value))
    (context : HelloHandler.Context) (now : Py.datetime) :
  (Py.assoc "name" items = None ->
   snd (HelloHandler.lambda_handler (Py.Dict items) context now)
   = snd (HelloHandler.lambda_handler (Py.Dict (("name", Py.Str "World") :: items))
            context now))
  /\ (forall trace r,
         HelloHandler.lambda_handler (Py.Dict items) context now = (trace, Return r) ->
         (Py.assoc "name" items = None -> field "message" r = Some (Py.Str "Hello, World!"))
         /\ (Py.assoc "name" items = Some Py.None_ ->
             field "message" r = Some (Py.Str "Hello, None!"))
         /\ (Py.assoc "name" items = Some (Py.Str "") ->
             field "message" r = Some (Py.Str "Hello, !"))).
Proof.
  split.
  - intros Hname. rewrite !greeting_paths. cbv zeta.
    change (Py.assoc "name" (("name", Py.Str "World") :: items)) with (Some (Py.Str "World")).
    rewrite Hname.
    destruct context as [|class_name attributes]; [reflexivity|].
    destruct (Py.assoc "function_name" attributes); [|reflexivity].
    destruct (Py.assoc "request_id" attributes); reflexivity.
  - intros trace r Hrun.
    destruct (greeting_returned items context now trace r Hrun)
      as (function_name & request_id & -> & _).
    unfold field. rewrite body_json_dumps.
    repeat split; intros ->; reflexivity.
Qed.

(** An event whose [name] is null. *)
Lemma greeting_default_name_witness :
  exists r,
    snd (HelloHandler.lambda_handler (Py.Dict [("name", Py.None_)])
           HelloHandler.Falsy (naive 2024 1 1 12 0 0))
    = Return r
    /\ field "message" r = Some (Py.Str "Hello, None!").
Proof.
  eexists. split; [reflexivity|].
  destruct (greeting_default_name [("name", Py.None_)] HelloHandler.Falsy
              (naive 2024 1 1 12 0 0)) as (_ & Hmessage).
  destruct (Hmessage _ _ eq_refl) as (_ & Hnull & _).
  apply Hnull. reflexivity.
Defined.

(** X5.  The clock of the handler is [datetime.now(timezone.utc)], a
    time with the offset zero: the [timestamp] of every response then
    ends with the marker [+00:00]. *)
Theorem greeting_timestamp_is_utc (event : Py.value) (context : HelloHandler.Context)
    (now : Py.datetime) (trace : list effect) (r : Response) :
  Py.utcoffset now = Some 0 ->
  HelloHandler.lambda_handler event context now = (trace, Return r) ->
  exists local_time, field "timestamp" r = Some (Py.Str (local_time +:+ "+00:00")).
Proof.
  intros Hutc Hrun.
  destruct event as [| | | |l|items];
    try (rewrite greeting_not_a_dict in Hrun by discriminate; discriminate).
  destruct (greeting_returned items context now trace r Hrun)
    as (function_name & request_id & -> & _).
  unfold field. rewrite body_json_dumps. cbn.
  unfold Py.isoformat. rewrite Hutc.
  change (Py.format_offset (Some 0)) with "+00:00".
  eexists. rewrite <- !append_assoc. reflexivity.
Qed.

(** Noon of the first day of 2024, in UTC. *)
Lemma greeting_timestamp_is_utc_witness :
  exists local_time,
    field "timestamp"
      {| statusCode := 200;
         headers := Some [("Content-Type", "application/json");
                          ("Access-Control-Allow-Origin", "*")];
         body := Py.json.dumps
                   (Py.Dict [("message", Py.Str "Hello, World!");
                             ("timestamp", Py.Str "2024-01-01T12:00:00+00:00");
                             ("function_name", Py.Str "local");
                             ("request_id", Py.Str "N/A")]) |}
    = Some (Py.Str (local_time +:+ "+00:00")).
Proof.
  apply (greeting_timestamp_is_utc (Py.Dict []) HelloHandler.Falsy
           {| Py.year := 2024; Py.month := 1; Py.day := 1; Py.hour := 12; Py.minute := 0;
              Py.second := 0; Py.microsecond := 0; Py.utcoffset := Some 0 |}
           [LogInfo "Received event: {}"; LogInfo "Returning message: Hello, World!"]).
  - reflexivity.
  - vm_compute. reflexivity.
Defined.

(** X6.  The greeting handler does nothing but log: it prints nothing,
    builds no client and asks for no listing, whatever the outcome.  Its
    first line carries the event as JSON, which decodes to the event
    again; when it returns, it has logged one more line, which carries
    the [message] of the response. *)
Theorem greeting_logs (event : Py.value) (context : HelloHandler.Context)
    (now : Py.datetime) (trace : list effect) (result : outcome Response) :
  HelloHandler.lambda_handler event context now = (trace, result) ->
  Forall (fun e => exists line, e = LogInfo line) trace
  /\ (exists document,
         head trace = Some (LogInfo ("Received event: " +:+ document))
         /\ Py.json.loads document = Some event)
  /\ (forall r,
         result = Return r ->
         exists received message,
           trace = [LogInfo received; LogInfo ("Returning message: " +:+ message)]
           /\ field "message" r = Some (Py.Str message)).
Proof.
  intros Hrun.
  assert (Hhead : forall rest,
             head (LogInfo ("Received event: " +:+ Py.json.dumps event) :: rest)
             = Some (LogInfo ("Received event: " +:+ Py.json.dumps event))
             /\ Py.json.loads (Py.json.dumps event) = Some event).
  { intros rest. split; [reflexivity | apply loads_dumps]. }
  destruct event as [| | | |l|items];
    try (rewrite greeting_not_a_dict in Hrun by discriminate;
         injection Hrun as <- <-;
         split; [repeat constructor; eexists; reflexivity|];
         split; [eexists; apply Hhead | discriminate]).
  assert (Hlogged : trace = [LogInfo ("Received event: " +:+ Py.json.dumps (Py.Dict items));
                             LogInfo ("Returning message: " +:+ "Hello, "
                                      +:+ Py.str (default (Py.Str "World")
                                                          (Py.assoc "name" items))
                                      +:+ "!")]).
  { rewrite greeting_paths in Hrun. cbv zeta in Hrun.
    destruct context as [|class_name attributes]; [congruence|].
    destruct (Py.assoc "function_name" attributes); [|congruence].
    destruct (Py.assoc "request_id" attributes); congruence. }
  split; [rewrite Hlogged; repeat constructor; eexists; reflexivity|].
  split; [rewrite Hlogged; eexists; apply Hhead|].
  intros r ->.
  destruct (greeting_returned items context now trace r Hrun)
    as (function_name & request_id & -> & _).
  eexists _, _. split; [exact Hlogged|].
  unfold field. rewrite body_json_dumps. reflexivity.
Qed.

(** The event of the local run. *)
Lemma greeting_logs_witness :
  exists document,
    head (fst (HelloHandler.lambda_handler (Py.Dict [("name", Py.Str "GitHub User")])
                 HelloHandler.Falsy (naive 2024 1 1 12 0 0)))
    = Some (LogInfo ("Received event: " +:+ document))
    /\ Py.json.loads document = Some (Py.Dict [("name", Py.Str "GitHub User")]).
Proof.
  destruct (greeting_logs (Py.Dict [("name", Py.Str "GitHub User")])
              HelloHandler.Falsy (naive 2024 1 1 12 0 0) _ _ eq_refl)
    as (_ & Hfirst & _).
  exact Hfirst.
Defined.

(** ** The bucket lister *)

(** X7.  The request goes before the environment: when the event names a
    bucket (a value taken for true), the variable [S3_BUCKET_NAME] and
    the rest of the environment have no part in the run; the listing is
    asked for the bucket of the event. *)
Theorem request_overrides_environment {C : Type} (items : list (string * Py.value))
    (context : C) (w w' : S3Handler.World) (requested : Py.value) :
  Py.assoc "bucket_name" items = Some requested ->
  Py.truthy requested = true ->
  S3Handler.boto3_client w = S3Handler.boto3_client w' ->
  S3Handler.lambda_handler (Py.Dict items) context w
  = S3Handler.lambda_handler (Py.Dict items) context w'
  /\ (forall s3, S3Handler.boto3_client w "s3" = Return s3 ->
        listing_calls (fst (S3Handler.lambda_handler (Py.Dict items) context w))
        = [ {| Bucket := requested; MaxKeys := Some 10; ContinuationToken := None |} ]).
Proof.
  intros Hrequested Htruthy Hclient.
  assert (Hor : forall fallback,
             Py.or_ (default Py.None_ (Py.assoc "bucket_name" items)) fallback = requested).
  { intros fallback. rewrite Hrequested. unfold Py.or_. cbn. now rewrite Htruthy. }
  rewrite !dict_event_paths. cbv zeta. rewrite !Hor, Htruthy, <- Hclient.
  split; [reflexivity|].
  intros s3 ->. listing_outcome s3; reflexivity.
Qed.

(** The event of the tests, with another bucket named by the
    environment. *)
Lemma request_overrides_environment_witness :
  listing_calls
    (fst (S3Handler.lambda_handler test_event tt
            (world {[ "S3_BUCKET_NAME" := "test-bucket-env" ]}
                   (mock_boto (Return {| Contents := None |})))))
  = [ {| Bucket := Py.Str "test-bucket"; MaxKeys := Some 10; ContinuationToken := None |} ].
Proof.
  destruct (request_overrides_environment
              [("bucket_name", Py.Str "test-bucket")] tt
              (world {[ "S3_BUCKET_NAME" := "test-bucket-env" ]}
                     (mock_boto (Return {| Contents := None |})))
              (world ∅ (mock_boto (Return {| Contents := None |})))
              (Py.Str "test-bucket") eq_refl eq_refl eq_refl)
    as (_ & Hcalls).
  exact (Hcalls _ eq_refl).
Defined.

(** X8.  Of the event the handler reads the key [bucket_name] and
    nothing else: two dictionaries with the same value under it, or both
    without it, are handled alike, whatever other keys they have and in
    whatever order. *)
Theorem only_bucket_name_is_read {C : Type} (items items' : list (string * Py.value))
    (context : C) (w : S3Handler.World) :
  Py.assoc "bucket_name" items = Py.assoc "bucket_name" items' ->
  S3Handler.lambda_handler (Py.Dict items) context w
  = S3Handler.lambda_handler (Py.Dict items') context w.
Proof.
  intros Hsame. rewrite !dict_event_paths. cbv zeta. now rewrite Hsame.
Qed.

(** An event as a gateway sends it, with keys the handler has no use
    for. *)
Lemma only_bucket_name_is_read_witness :
  S3Handler.lambda_handler
    (Py.Dict [("path", Py.Str "/list"); ("bucket_name", Py.Str "test-bucket");
              ("headers", Py.Dict [("bucket_name", Py.Str "other")])])
    tt (world ∅ (mock_boto (Return {| Contents := Some two_files |})))
  = S3Handler.lambda_handler test_event tt
      (world ∅ (mock_boto (Return {| Contents := Some two_files |}))).
Proof. apply only_bucket_name_is_read. reflexivity. Defined.

(** X9.  An exception leaves the bucket lister in three ways, and these
    are all: [event.get] on an event that is no dictionary, when nothing
    but the greeting has been printed; [boto3.client], whose exception
    is passed on as it is, be it a [ClientError], after a bucket name
    was resolved and without any listing being asked for; and the
    clause [except ClientError], when [list_objects_v2] raised a
    [ClientError] whose response lacks [Error], [Code] or [Message]:
    the subscript raises a [KeyError] that names the first key missing,
    after the one listing was asked for and before anything is printed
    about the failure.  Whatever else [list_objects_v2] raises does not
    leave the handler. *)
Theorem exceptions_that_leave {C : Type} (event : Py.value) (context : C)
    (w : S3Handler.World) (trace : list effect) (e : exn) :
  S3Handler.lambda_handler event context w = (trace, Raise e)
  <-> ((forall items, event <> Py.Dict items)
       /\ trace = [Print "Hello World! Starting S3 bucket read operation..."]
       /\ e = Exception ("'" +:+ type_name event +:+ "' object has no attribute 'get'"))
      \/ (exists items,
             event = Py.Dict items
             /\ Py.truthy (Py.or_ (default Py.None_ (Py.assoc "bucket_name" items))
                                  (S3Handler.environ_get w "S3_BUCKET_NAME")) = true
             /\ S3Handler.boto3_client w "s3" = Raise e
             /\ trace = [Print "Hello World! Starting S3 bucket read operation...";
                         Boto3Client "s3"]
             /\ listing_calls trace = [])
      \/ (exists items bucket_name kwargs s3 Error_ operation_name key,
             event = Py.Dict items
             /\ bucket_name = Py.or_ (default Py.None_ (Py.assoc "bucket_name" items))
                                     (S3Handler.environ_get w "S3_BUCKET_NAME")
             /\ kwargs = {| Bucket := bucket_name; MaxKeys := Some 10;
                            ContinuationToken := None |}
             /\ Py.truthy bucket_name = true
             /\ S3Handler.boto3_client w "s3" = Return s3
             /\ s3 kwargs = Raise (ClientError Error_ operation_name)
             /\ missing_key Error_ = Some key
             /\ e = Exception ("'" +:+ key +:+ "'")
             /\ trace = [Print "Hello World! Starting S3 bucket read operation...";
                         Boto3Client "s3";
                         Print ("Reading from S3 bucket: " +:+ Py.str bucket_name);
                         ListObjectsV2 kwargs]
             /\ listing_calls trace = [kwargs]).
Proof.
  split.
  - intros Hrun.
    destruct event as [| | | |l|items];
      try (rewrite not_a_dict_raises in Hrun by discriminate;
           injection Hrun as <- <-; left; repeat split; discriminate).
    right. rewrite dict_event_paths in Hrun. cbv zeta in Hrun.
    destruct (Py.truthy _) eqn:Htruthy; [|discriminate].
    destruct (S3Handler.boto3_client w "s3") as [s3|e'] eqn:Hclient.
    + listing_outcome s3; try discriminate; injection Hrun as <- <-;
        right; exists items; eexists _, _, s3, _, op, _;
        (split; [reflexivity|]); (split; [reflexivity|]); (split; [reflexivity|]);
        (split; [exact Htruthy|]); (split; [reflexivity|]); (split; [exact Hcall|]);
        unfold missing_key; rewrite ?Hcode, ?Hmessage;
        (split; [reflexivity|]); repeat split; reflexivity.
    + left. exists items. injection Hrun as <- <-.
      repeat split; first [exact Htruthy | reflexivity].
  - intros [(Hne & -> & ->) | [(items & -> & Htruthy & Hclient & -> & _) | Hkey]].
    + now apply not_a_dict_raises.
    + rewrite dict_event_paths. cbv zeta. now rewrite Htruthy, Hclient.
    + destruct Hkey as (items & bucket_name & kwargs & s3 & Error_ & operation_name & key
                        & -> & -> & -> & Htruthy & Hclient & Hcall & Hkey & -> & -> & _).
      rewrite dict_event_paths. cbv zeta. rewrite Htruthy, Hclient, Hcall.
      unfold missing_key in Hkey. destruct Error_ as [error|].
      * destruct (Py.assoc "Code" error) as [error_code|].
        -- destruct (Py.assoc "Message" error) as [error_message|]; [discriminate|].
           injection Hkey as <-. reflexivity.
        -- injection Hkey as <-. reflexivity.
      * injection Hkey as <-. reflexivity.
Qed.

(** A provider that fails with a [ClientError] without a code: the
    [KeyError] leaves the handler, although the bucket was asked for. *)
Lemma exceptions_that_leave_witness :
  S3Handler.lambda_handler test_event tt (world ∅ (mock_boto (Raise without_code)))
  = ([Print "Hello World! Starting S3 bucket read operation...";
      Boto3Client "s3";
      Print "Reading from S3 bucket: test-bucket";
      ListObjectsV2 {| Bucket := Py.Str "test-bucket"; MaxKeys := Some 10;
                       ContinuationToken := None |}],
     Raise (Exception "'Code'")).
Proof.
  apply (proj2 (exceptions_that_leave test_event tt
                  (world ∅ (mock_boto (Raise without_code))) _ _)).
  right. right.
  exists [("bucket_name", Py.Str "test-bucket")]. eexists _, _, _, _, _, "Code".
  repeat split; reflexivity.
Defined.

(** X10.  What the handler prints last tells how the run ended.  Before
    a 200 response it is the [message] of the response; before a 500
    response it is a line that ends with the text of the [error] field,
    so that no failure of the provider goes unprinted; a 400 response is
    given when only the greeting has been printed, the missing bucket
    name is not printed. *)
Theorem last_print_tells_the_end {C : Type} (event : Py.value) (context : C)
    (w : S3Handler.World) (trace : list effect) (r : Response) :
  S3Handler.lambda_handler event context w = (trace, Return r) ->
  (statusCode r = 200 ->
   exists message, last trace = Some (Print message)
                   /\ field "message" r = Some (Py.Str message))
  /\ (statusCode r = 500 ->
      exists before error, last trace = Some (Print (before +:+ error))
                           /\ field "error" r = Some (Py.Str error))
  /\ (statusCode r = 400 ->
      trace = [Print "Hello World! Starting S3 bucket read operation..."]).
Proof.
  intros Hrun.
  destruct event as [| | | |l|items];
    try (rewrite not_a_dict_raises in Hrun by discriminate; discriminate).
  rewrite dict_event_paths in Hrun. cbv zeta in Hrun.
  destruct (Py.truthy _).
  - destruct (S3Handler.boto3_client w "s3") as [s3|e']; [|discriminate].
    listing_outcome s3; try discriminate;
      injection Hrun as <- <-; unfold field; rewrite body_json_dumps; cbn;
      (split; [|split]); try discriminate; intros _.
    + eexists. split; reflexivity.
    + exists ("Error reading from S3 bucket: " +:+ error_code +:+ " - "), error_message.
      split; [|reflexivity]. now rewrite !append_assoc.
    + exists "Unexpected error: ", description. split; reflexivity.
  - injection Hrun as <- <-. cbn. repeat split; try discriminate.
Qed.

(** [test_s3_client_error]: the message of the provider is printed. *)
Lemma last_print_tells_the_end_witness :
  exists before,
    last (fst (S3Handler.lambda_handler test_event tt
                 (world ∅ (mock_boto (Raise no_such_bucket)))))
    = Some (Print (before +:+ "The specified bucket does not exist")).
Proof.
  destruct (last_print_tells_the_end test_event tt
              (world ∅ (mock_boto (Raise no_such_bucket))) _ _ eq_refl)
    as (_ & Hfailure & _).
  destruct (Hfailure eq_refl) as (before & error & Hlast & Herror).
  exists before.
  unfold field in Herror. rewrite body_json_dumps in Herror.
  injection Herror as <-. exact Hlast.
Defined.

(** X11.  A response with [statusCode] 200 or 500 is given after exactly
    one listing was asked for, a 400 response after none; and the
    [bucket] a 200 response reports is the one that listing was asked
    for, as it was passed to the provider. *)
Theorem reported_bucket_is_the_one_listed {C : Type} (event : Py.value) (context : C)
    (w : S3Handler.World) (trace : list effect) (r : Response) :
  S3Handler.lambda_handler event context w = (trace, Return r) ->
  (statusCode r = 400 /\ listing_calls trace = [])
  \/ (exists kwargs,
         listing_calls trace = [kwargs]
         /\ (statusCode r = 500
             \/ (statusCode r = 200 /\ field "bucket" r = Some (Bucket kwargs)))).
Proof.
  intros Hrun.
  destruct event as [| | | |l|items];
    try (rewrite not_a_dict_raises in Hrun by discriminate; discriminate).
  rewrite dict_event_paths in Hrun. cbv zeta in Hrun.
  destruct (Py.truthy _).
  - destruct (S3Handler.boto3_client w "s3") as [s3|e']; [|discriminate].
    listing_outcome s3; try discriminate;
      injection Hrun as <- <-; right; eexists; (split; [reflexivity|]).
    + right. split; [reflexivity|]. unfold field. rewrite body_json_dumps. reflexivity.
    + now left.
    + now left.
  - injection Hrun as <- <-. left. split; reflexivity.
Qed.

(** A bucket name that is a number is listed and reported as the number. *)
Lemma reported_bucket_is_the_one_listed_witness :
  exists r,
    snd (S3Handler.lambda_handler (Py.Dict [("bucket_name", Py.Int 7)]) tt
           (world ∅ (mock_boto (Return {| Contents := None |}))))
    = Return r
    /\ field "bucket" r = Some (Py.Int 7).
Proof.
  eexists. split; [reflexivity|].
  destruct (reported_bucket_is_the_one_listed (Py.Dict [("bucket_name", Py.Int 7)]) tt
              (world ∅ (mock_boto (Return {| Contents := None |}))) _ _ eq_refl)
    as [(Hstatus & _) | (kwargs & Hcalls & [Hstatus | (_ & Hbucket)])];
    try discriminate Hstatus.
  injection Hcalls as <-. exact Hbucket.
Defined.

(** ** Bodies are plain text *)

Lemma all_printable_append (a b : string) :
  all_printable (a +:+ b) = all_printable a && all_printable b.
Proof.
  induction a as [|c a IH]; [reflexivity|].
  change (String c a +:+ b) with (String c (a +:+ b)). cbn. now rewrite IH, andb_assoc.
Qed.

Lemma escape_char_printable (c : ascii) : all_printable (Py.json.escape_char c) = true.
Proof. destruct c as [[] [] [] [] [] [] [] []]; reflexivity. Qed.

Lemma encode_str_printable (s : string) : all_printable (Py.json.encode_str s) = true.
Proof.
  assert (Hchars : all_printable (Py.concat_map Py.json.escape_char s) = true).
  { induction s as [|c s IH]; [reflexivity|].
    cbn [Py.concat_map]. now rewrite all_printable_append, escape_char_printable, IH. }
  unfold Py.json.encode_str. rewrite all_printable_append. cbn [all_printable].
  rewrite Hchars. reflexivity.
Qed.

Lemma str_int_printable (n : Z) : all_printable (Py.str_int n) = true.
Proof.
  assert (Hdigits : forall d, all_printable (NilEmpty.string_of_uint d) = true).
  { induction d; cbn; auto. }
  destruct n; unfold Py.str_int, Py.decimal;
    [apply Hdigits | apply Hdigits | cbn [all_printable]; now rewrite Hdigits].
Qed.

Lemma join_printable (parts : list string) :
  Forall (fun p => all_printable p = true) parts ->
  all_printable (Py.join ", " parts) = true.
Proof.
  induction 1 as [|p parts Hp Hparts IH]; [reflexivity|].
  destruct parts as [|q parts]; [exact Hp|].
  rewrite join_cons2, !all_printable_append, Hp, IH. reflexivity.
Qed.

(** Whatever characters its strings hold, a value is written in
    printable ASCII. *)
Lemma dumps_printable : forall v : Py.value, all_printable (Py.json.dumps v) = true.
Proof.
  fix IH 1. intros [| [] |n|s|items|items]; try reflexivity.
  - apply str_int_printable.
  - apply encode_str_printable.
  - rewrite <- (append_nil_r (Py.json.dumps _)), dumps_List.
    change (String "["%char ?x) with ("[" +:+ x).
    rewrite !all_printable_append, join_printable; [reflexivity|].
    induction items as [|v items IHitems]; constructor; [apply IH | exact IHitems].
  - rewrite <- (append_nil_r (Py.json.dumps _)), dumps_Dict.
    change (String "{"%char ?x) with ("{" +:+ x).
    rewrite !all_printable_append, join_printable; [reflexivity|].
    induction items as [|[k v] items IHitems]; constructor; [|exact IHitems].
    unfold dumps_item. cbn [fst snd].
    now rewrite !all_printable_append, encode_str_printable, IH.
Qed.

(** The encoder writes every code point, of the whole range of
    [chr], in printable ASCII. *)
Lemma escape_code_point_printable (n : N) :
  all_printable (Py.json.escape_code_point n) = true.
Proof.
  assert (Hdigit : forall d, ascii_printable (Py.hex_digit d) = true).
  { intros [|p]; [reflexivity|].
    repeat first [reflexivity | destruct p as [p|p|]]. }
  assert (Hhex : forall m, all_printable (String Py.backslash ("u" +:+ Py.json.hex4 m)) = true).
  { intros m. unfold Py.json.hex4. cbn [all_printable String.append].
    change ("u" +:+ ?x) with (String "u"%char x). cbn [all_printable].
    now rewrite !Hdigit. }
  unfold Py.json.escape_code_point.
  destruct (n =? 34)%N; [reflexivity|]. destruct (n =? 92)%N; [reflexivity|].
  assert (Hother : all_printable
                     (if ((32 <=? n) && (n <? 127))%N then String (ascii_of_N n) ""
                      else if (n <? 65536)%N then String Py.backslash ("u" +:+ Py.json.hex4 n)
                      else String Py.backslash
                             ("u" +:+ Py.json.hex4
                                        (N.lor 55296 (N.land (N.shiftr (n - 65536) 10) 1023)))
                           +:+ String Py.backslash
                                 ("u" +:+ Py.json.hex4 (N.lor 56320 (N.land (n - 65536) 1023))))
                   = true).
  { destruct ((32 <=? n) && (n <? 127))%N eqn:Hplain.
    - cbn [all_printable]. unfold ascii_printable.
      apply andb_prop in Hplain as [Hlow Hhigh].
      apply N.leb_le in Hlow. apply N.ltb_lt in Hhigh.
      rewrite N_ascii_embedding by lia.
      apply N.leb_le in Hlow. apply N.ltb_lt in Hhigh. now rewrite Hlow, Hhigh.
    - destruct (n <? 65536)%N; [apply Hhex|].
      now rewrite all_printable_append, !Hhex. }
  destruct n as [|p]; [exact Hother|].
  repeat first [exact Hother | reflexivity | destruct p as [p|p|]].
Qed.

(** On the code points a string of the model holds, the encoder is
    [escape_char]. *)
Lemma escape_code_point_below_256 (c : ascii) :
  Py.json.escape_code_point (N_of_ascii c) = Py.json.escape_char c.
Proof. destruct c as [[] [] [] [] [] [] [] []]; reflexivity. Qed.

(** X12.  A response body is printable ASCII throughout.  For the two
    handlers this is shown on the strings of the model, whose characters
    are the code points below U+0100, control characters, quotes,
    backslashes and the letters of Latin-1 included: whichever of them
    the bucket name, the keys of the objects, the messages of the
    provider or the name to greet hold, [json.dumps] escapes what is not
    printable ASCII.  For the code points from U+0100 on, which the
    strings of the model do not hold, it is shown on the encoder: the
    escape it writes for any code point, four hexadecimal digits or a
    surrogate pair, is printable ASCII, and below U+0100 it is the
    escape the bodies are written with. *)
Theorem bodies_are_printable_ascii :
  (forall (C : Type) (event : Py.value) (context : C) (w : S3Handler.World)
          (trace : list effect) (r : Response),
      S3Handler.lambda_handler event context w = (trace, Return r) ->
      all_printable (body r) = true)
  /\ (forall (event : Py.value) (context : HelloHandler.Context) (now : Py.datetime)
             (trace : list effect) (r : Response),
         HelloHandler.lambda_handler event context now = (trace, Return r) ->
         all_printable (body r) = true)
  /\ (forall n : N, all_printable (Py.json.escape_code_point n) = true)
  /\ (forall c : ascii, Py.json.escape_code_point (N_of_ascii c) = Py.json.escape_char c).
Proof.
  split; [|split; [|split; [exact escape_code_point_printable
                           | exact escape_code_point_below_256]]].
  - intros C event context w trace r Hrun.
    destruct event as [| | | |l|items];
      try (rewrite not_a_dict_raises in Hrun by discriminate; discriminate).
    rewrite dict_event_paths in Hrun. cbv zeta in Hrun.
    destruct (Py.truthy _).
    + destruct (S3Handler.boto3_client w "s3") as [s3|e']; [|discriminate].
      listing_outcome s3; try discriminate;
        injection Hrun as _ <-; apply dumps_printable.
    + injection Hrun as _ <-. apply dumps_printable.
  - intros event context now trace r Hrun.
    destruct event as [| | | |l|items];
      try (rewrite greeting_not_a_dict in Hrun by discriminate; discriminate).
    rewrite greeting_paths in Hrun. cbv zeta in Hrun.
    destruct context as [|class_name attributes].
    + injection Hrun as _ <-. apply dumps_printable.
    + destruct (Py.assoc "function_name" attributes); [|discriminate].
      destruct (Py.assoc "request_id" attributes); [|discriminate].
      injection Hrun as _ <-. apply dumps_printable.
Qed.

(** A provider message with a line feed and a letter outside ASCII. *)
Lemma bodies_are_printable_ascii_witness :
  exists r,
    snd (S3Handler.lambda_handler test_event tt
           (world ∅ (mock_boto (Raise (Exception odd_message)))))
    = Return r
    /\ all_printable (body r) = true
    /\ all_printable odd_message = false
    /\ field "error" r = Some (Py.Str odd_message).
Proof.
  eexists. split; [reflexivity|]. split; [|split].
  - exact (proj1 bodies_are_printable_ascii unit test_event tt
             (world ∅ (mock_boto (Raise (Exception odd_message)))) _ _ eq_refl).
  - reflexivity.
  - unfold field. rewrite body_json_dumps. reflexivity.
Defined.

(** The euro sign and an emoji, as [json.dumps] writes them. *)
Example escape_code_point_examples :
  Py.json.escape_code_point 8364 = String Py.backslash "u20ac"
  /\ Py.json.escape_code_point 128512
     = String Py.backslash "ud83d" +:+ String Py.backslash "ude00"
  /\ Py.json.escape_code_point 233 = String Py.backslash "u00e9".
Proof. repeat split; vm_compute; reflexivity. Qed.

(** ** The test suite *)

(** X13.  [test_missing_bucket_name] patches neither the environment nor
    [boto3.client]: it passes exactly when the process that runs it has
    no [S3_BUCKET_NAME], or an empty one.  With a bucket named there the
    handler goes on to the provider, and the test cannot pass whatever
    the provider does. *)
Theorem missing_bucket_test_needs_clean_environment (ambient : S3Handler.World) :
  TestSuite.test_missing_bucket_name ambient = true
  <-> (S3Handler.environ ambient !! "S3_BUCKET_NAME" = None
       \/ S3Handler.environ ambient !! "S3_BUCKET_NAME" = Some "").
Proof.
  unfold TestSuite.test_missing_bucket_name, TestSuite.check.
  rewrite dict_event_paths. cbv zeta.
  change (default Py.None_ (Py.assoc "bucket_name" [])) with Py.None_.
  unfold Py.or_. change (Py.truthy Py.None_) with false. cbv iota.
  unfold S3Handler.environ_get.
  destruct (S3Handler.environ ambient !! "S3_BUCKET_NAME") as [name|] eqn:Henv.
  - destruct (truthy_str name) as [Htrue Hfalse].
    destruct (Py.truthy (Py.Str name)) eqn:Htruthy.
    + specialize (Htrue eq_refl).
      assert (Hfails : forall run : M Response,
                 (forall r, snd run = Return r -> statusCode r = 200 \/ statusCode r = 500) ->
                 match snd run with
                 | Return result =>
                     (statusCode result =? 400)
                     && TestSuite.has "Error" (TestSuite.getitem (body_json result) "message")
                     && TestSuite.eq_str (TestSuite.getitem (body_json result) "hello") "world"
                 | Raise _ => false
                 end = false).
      { intros [t [r|e]] Hstatus; [|reflexivity]. cbn.
        destruct (Hstatus r eq_refl) as [-> | ->]; reflexivity. }
      rewrite Hfails.
      * split; [discriminate | intros [H | H]; congruence].
      * intros r. destruct (S3Handler.boto3_client ambient "s3") as [s3|e]; [|discriminate].
        listing_outcome s3; cbn; intros Hresult; try discriminate Hresult;
          injection Hresult as <-; auto.
    + split; [intros _; right | intros _].
      * f_equal. destruct (String.eqb_spec name ""); [assumption|].
        specialize (Hfalse n). discriminate.
      * cbn [snd]. rewrite body_json_dumps. vm_compute. reflexivity.
  - change (Py.truthy Py.None_) with false. cbv iota. cbn [snd].
    rewrite body_json_dumps. split; [now left | intros _; vm_compute; reflexivity].
Qed.

(** The test in a shell that has exported a bucket name: it fails, the
    mocked provider of the other tests notwithstanding. *)
Lemma missing_bucket_test_needs_clean_environment_witness :
  TestSuite.test_missing_bucket_name
    (world {[ "S3_BUCKET_NAME" := "my-bucket" ]} (mock_boto (Return {| Contents := None |})))
  = false
  /\ TestSuite.test_missing_bucket_name (world ∅ no_client) = true.
Proof.
  split; [reflexivity|].
  apply (proj2 (missing_bucket_test_needs_clean_environment (world ∅ no_client))).
  left. reflexivity.
Defined.

(** X14.  The five tests that mock [boto3.client] pass in every
    environment of the test process: four name the bucket in the event,
    which goes before the environment, and the fifth sets the variable
    itself. *)
Theorem mocked_tests_pass_in_every_environment (environ : gmap string string) :
  TestSuite.test_bucket_name_from_environment environ = true
  /\ TestSuite.test_successful_s3_read environ = true
  /\ TestSuite.test_empty_bucket environ = true
  /\ TestSuite.test_s3_client_error environ = true
  /\ TestSuite.test_unexpected_error environ = true.
Proof.
  split.
  - unfold TestSuite.test_bucket_name_from_environment, TestSuite.check.
    rewrite dict_event_paths. cbv zeta.
    unfold S3Handler.environ_get. cbn [S3Handler.environ S3Handler.boto3_client].
    rewrite lookup_insert_eq. vm_compute. reflexivity.
  - repeat split;
      unfold TestSuite.test_successful_s3_read, TestSuite.test_empty_bucket,
        TestSuite.test_s3_client_error, TestSuite.test_unexpected_error, TestSuite.check;
      rewrite dict_event_paths; cbv zeta;
      match goal with
      | |- context [Py.or_ ?a ?b] => change (Py.or_ a b) with a
      end;
      cbn [S3Handler.boto3_client]; vm_compute; reflexivity.
Qed.

(** ** Decoding what the local runs print *)

Lemma skip_ws_blanks (n : nat) (s : string) :
  Py.json.skip_ws (string_of_list_ascii (repeat " "%char n) +:+ s) = Py.json.skip_ws s.
Proof. induction n as [|n IH]; [reflexivity | exact IH]. Qed.

Lemma skip_ws_newline_indent (indent level : nat) (s : string) :
  Py.json.skip_ws (newline_indent indent level +:+ s) = Py.json.skip_ws s.
Proof. unfold newline_indent. exact (skip_ws_blanks _ s). Qed.

Lemma length_separator (indent level : nat) :
  (2 <= String.length ("," +:+ newline_indent indent level))%nat.
Proof.
  change ("," +:+ newline_indent indent level)
    with (String ","%char
            (String (ascii_of_N 10) (string_of_list_ascii (repeat " "%char (indent * level))))).
  cbn [String.length]. lia.
Qed.

Lemma dumps_indent_head (indent level : nat) (v : Py.value) :
  exists c s, dumps_indent indent level v = String c s /\ starts_value c = true.
Proof.
  destruct v as [|b|n|s|[|v vs]|[|kv kvs]];
    try exact (dumps_head _); eexists _, _; split; reflexivity.
Qed.

Lemma skip_ws_dumps_indent (indent level : nat) (v : Py.value) (rest : string) :
  Py.json.skip_ws (dumps_indent indent level v +:+ rest) = dumps_indent indent level v +:+ rest.
Proof.
  destruct (dumps_indent_head indent level v) as (c & s & -> & Hc). now apply skip_ws_head.
Qed.

Lemma dumps_indent_List (indent level : nat) (v : Py.value) (vs : list Py.value)
    (rest : string) :
  dumps_indent indent level (Py.List (v :: vs)) +:+ rest
  = String "["
      (newline_indent indent (S level)
       +:+ Py.join ("," +:+ newline_indent indent (S level))
                   (map (dumps_indent indent (S level)) (v :: vs))
       +:+ newline_indent indent level +:+ String "]" rest).
Proof.
  change (dumps_indent indent level (Py.List (v :: vs)))
    with (String "["%char
            (newline_indent indent (S level)
             +:+ Py.join ("," +:+ newline_indent indent (S level))
                         (map (dumps_indent indent (S level)) (v :: vs))
             +:+ newline_indent indent level +:+ "]")).
  change (String "["%char ?x +:+ ?y) with (String "["%char (x +:+ y)).
  now rewrite !append_assoc.
Qed.

Lemma length_dumps_indent_List (indent level : nat) (v : Py.value) (vs : list Py.value) :
  (String.length (Py.join ("," +:+ newline_indent indent (S level))
                          (map (dumps_indent indent (S level)) (v :: vs))) + 2
   <= String.length (dumps_indent indent level (Py.List (v :: vs))))%nat.
Proof.
  rewrite <- (append_nil_r (dumps_indent _ _ _)), dumps_indent_List.
  cbn [String.length]. rewrite !length_append. cbn [String.length]. lia.
Qed.

Lemma dumps_indent_Dict (indent level : nat) (kv : string * Py.value)
    (kvs : list (string * Py.value)) (rest : string) :
  dumps_indent indent level (Py.Dict (kv :: kvs)) +:+ rest
  = String "{"
      (newline_indent indent (S level)
       +:+ Py.join ("," +:+ newline_indent indent (S level))
                   (map (dumps_indent_item indent (S level)) (kv :: kvs))
       +:+ newline_indent indent level +:+ String "}" rest).
Proof.
  change (dumps_indent indent level (Py.Dict (kv :: kvs)))
    with (String "{"%char
            (newline_indent indent (S level)
             +:+ Py.join ("," +:+ newline_indent indent (S level))
                         (map (dumps_indent_item indent (S level)) (kv :: kvs))
             +:+ newline_indent indent level +:+ "}")).
  change (String "{"%char ?x +:+ ?y) with (String "{"%char (x +:+ y)).
  now rewrite !append_assoc.
Qed.

Lemma length_dumps_indent_Dict (indent level : nat) (kv : string * Py.value)
    (kvs : list (string * Py.value)) :
  (String.length (Py.join ("," +:+ newline_indent indent (S level))
                          (map (dumps_indent_item indent (S level)) (kv :: kvs))) + 2
   <= String.length (dumps_indent indent level (Py.Dict (kv :: kvs))))%nat.
Proof.
  rewrite <- (append_nil_r (dumps_indent _ _ _)), dumps_indent_Dict.
  cbn [String.length]. rewrite !length_append. cbn [String.length]. lia.
Qed.

Lemma join_indent_head (indent level : nat) (sep : string) (items : list Py.value)
    (tail : string) :
  items <> [] ->
  exists c s, Py.join sep (map (dumps_indent indent level) items) +:+ tail = String c s
              /\ starts_value c = true.
Proof.
  destruct items as [|v [|v' vs]]; [congruence | |]; intros _;
    destruct (dumps_indent_head indent level v) as (c & s & Hv & Hc).
  - change (Py.join sep (map (dumps_indent indent level) [v]))
      with (dumps_indent indent level v).
    rewrite Hv. eexists _, _. split; [reflexivity | exact Hc].
  - change (map (dumps_indent indent level) (v :: v' :: vs))
      with (dumps_indent indent level v
            :: dumps_indent indent level v' :: map (dumps_indent indent level) vs).
    rewrite join_cons2, Hv. eexists _, _. split; [reflexivity | exact Hc].
Qed.

Lemma join_indent_items_head (indent level : nat) (sep : string)
    (items : list (string * Py.value)) (tail : string) :
  items <> [] ->
  exists s,
    Py.join sep (map (dumps_indent_item indent level) items) +:+ tail = String Py.dquote s.
Proof.
  destruct items as [|kv [|kv' kvs]]; [congruence | |]; intros _.
  - change (Py.join sep (map (dumps_indent_item indent level) [kv]))
      with (dumps_indent_item indent level kv).
    unfold dumps_indent_item, indented_key.
    rewrite !append_assoc, encode_str_append. eauto.
  - change (map (dumps_indent_item indent level) (kv :: kv' :: kvs))
      with (dumps_indent_item indent level kv
            :: dumps_indent_item indent level kv' :: map (dumps_indent_item indent level) kvs).
    rewrite join_cons2. unfold dumps_indent_item at 1. unfold indented_key.
    rewrite !append_assoc, encode_str_append. eauto.
Qed.

Lemma parse_dumps_indent (indent fuel : nat) :
  (forall v level rest,
      (String.length (dumps_indent indent level v) < fuel)%nat -> delimits rest = true ->
      Py.json.parse_value fuel (dumps_indent indent level v +:+ rest) = Some (v, rest))
  /\ (forall items level rest,
      items <> [] ->
      (String.length (Py.join ("," +:+ newline_indent indent (S level))
                              (map (dumps_indent indent (S level)) items)) + 1 < fuel)%nat ->
      Py.json.parse_array fuel
        (Py.join ("," +:+ newline_indent indent (S level))
                 (map (dumps_indent indent (S level)) items)
         +:+ newline_indent indent level +:+ String "]" rest)
      = Some (items, rest))
  /\ (forall items level rest,
      items <> [] ->
      (String.length (Py.join ("," +:+ newline_indent indent (S level))
                              (map (dumps_indent_item indent (S level)) items)) + 1 < fuel)%nat ->
      Py.json.parse_object fuel
        (Py.join ("," +:+ newline_indent indent (S level))
                 (map (dumps_indent_item indent (S level)) items)
         +:+ newline_indent indent level +:+ String "}" rest)
      = Some (items, rest)).
Proof.
  induction fuel as [|fuel (IHv & IHa & IHo)].
  { repeat split; intros; lia. }
  split; [|split].
  - (* a value *)
    intros v level rest Hlen Hrest.
    destruct v as [|b|n|s|[|v vs]|[|kv kvs]];
      [ exact (proj1 (parse_dumps (S fuel)) Py.None_ rest Hlen Hrest)
      | exact (proj1 (parse_dumps (S fuel)) (Py.Bool b) rest Hlen Hrest)
      | exact (proj1 (parse_dumps (S fuel)) (Py.Int n) rest Hlen Hrest)
      | exact (proj1 (parse_dumps (S fuel)) (Py.Str s) rest Hlen Hrest)
      | exact (proj1 (parse_dumps (S fuel)) (Py.List []) rest Hlen Hrest)
      |
      | exact (proj1 (parse_dumps (S fuel)) (Py.Dict []) rest Hlen Hrest)
      | ].
    + rewrite dumps_indent_List.
      pose proof (length_dumps_indent_List indent level v vs) as Hjoin.
      change (Py.json.parse_value (S fuel) (String "["%char ?x))
        with (match Py.json.skip_ws x with
              | String c1 r1 =>
                  if Ascii.eqb c1 "]" then Some (Py.List [], r1)
                  else match Py.json.parse_array fuel (String c1 r1) with
                       | Some (items, r) => Some (Py.List items, r)
                       | None => None
                       end
              | EmptyString => None
              end).
      rewrite skip_ws_newline_indent.
      destruct (join_indent_head indent (S level) ("," +:+ newline_indent indent (S level))
                  (v :: vs) (newline_indent indent level +:+ String "]" rest))
        as (c & s & Hj & Hc); [discriminate|].
      rewrite Hj, (skip_ws_head c s Hc).
      unfold starts_value in Hc.
      destruct (Ascii.eqb c "]"); [now rewrite andb_false_r in Hc|].
      rewrite <- Hj, IHa; [reflexivity | discriminate | lia].
    + rewrite dumps_indent_Dict.
      pose proof (length_dumps_indent_Dict indent level kv kvs) as Hjoin.
      change (Py.json.parse_value (S fuel) (String "{"%char ?x))
        with (match Py.json.skip_ws x with
              | String c1 r1 =>
                  if Ascii.eqb c1 "}" then Some (Py.Dict [], r1)
                  else match Py.json.parse_object fuel (String c1 r1) with
                       | Some (items, r) => Some (Py.Dict items, r)
                       | None => None
                       end
              | EmptyString => None
              end).
      rewrite skip_ws_newline_indent.
      destruct (join_indent_items_head indent (S level)
                  ("," +:+ newline_indent indent (S level))
                  (kv :: kvs) (newline_indent indent level +:+ String "}" rest))
        as (s & Hj); [discriminate|].
      rewrite Hj, (skip_ws_head Py.dquote s eq_refl).
      change (Ascii.eqb Py.dquote "}") with false. cbv iota.
      rewrite <- Hj, IHo; [reflexivity | discriminate | lia].
  - (* the items of an array *)
    intros items level rest Hne Hlen. rewrite parse_array_S.
    destruct items as [|v [|v' vs]]; [congruence | |].
    + change (Py.join ("," +:+ newline_indent indent (S level))
                      (map (dumps_indent indent (S level)) [v]))
        with (dumps_indent indent (S level) v) in *.
      rewrite IHv by (reflexivity || lia).
      rewrite skip_ws_newline_indent. reflexivity.
    + change (map (dumps_indent indent (S level)) (v :: v' :: vs))
        with (dumps_indent indent (S level) v
              :: dumps_indent indent (S level) v'
              :: map (dumps_indent indent (S level)) vs) in *.
      rewrite join_cons2 in *.
      change (dumps_indent indent (S level) v' :: map (dumps_indent indent (S level)) vs)
        with (map (dumps_indent indent (S level)) (v' :: vs)) in *.
      pose proof (length_separator indent (S level)) as Hsep.
      rewrite length_append in Hsep. rewrite !length_append in Hlen.
      rewrite !append_assoc.
      change ("," +:+ ?x) with (String ","%char x).
      rewrite IHv by (reflexivity || lia).
      eat_separator ","%char.
      rewrite skip_ws_newline_indent.
      destruct (join_indent_head indent (S level) ("," +:+ newline_indent indent (S level))
                  (v' :: vs) (newline_indent indent level +:+ String "]" rest))
        as (c & s & Hj & Hc); [discriminate|].
      rewrite Hj, (skip_ws_head c s Hc), <- Hj.
      rewrite IHa; [reflexivity | discriminate | lia].
  - (* the items of an object *)
    intros items level rest Hne Hlen.
    destruct items as [|[k v] [|kv' kvs]]; [congruence | |].
    + change (Py.join ("," +:+ newline_indent indent (S level))
                      (map (dumps_indent_item indent (S level)) [(k, v)]))
        with ((Py.json.encode_str k +:+ ": ") +:+ dumps_indent indent (S level) v) in *.
      rewrite !append_assoc. rewrite parse_object_S.
      change (": " +:+ ?x) with (String ":"%char (String " "%char x)).
      eat_separator ":"%char.
      rewrite skip_ws_dumps_indent.
      rewrite !length_append in Hlen.
      rewrite IHv by (reflexivity || lia).
      rewrite skip_ws_newline_indent. reflexivity.
    + change (map (dumps_indent_item indent (S level)) ((k, v) :: kv' :: kvs))
        with (((Py.json.encode_str k +:+ ": ") +:+ dumps_indent indent (S level) v)
              :: dumps_indent_item indent (S level) kv'
              :: map (dumps_indent_item indent (S level)) kvs) in *.
      rewrite join_cons2 in *.
      change (dumps_indent_item indent (S level) kv'
              :: map (dumps_indent_item indent (S level)) kvs)
        with (map (dumps_indent_item indent (S level)) (kv' :: kvs)) in *.
      pose proof (length_separator indent (S level)) as Hsep.
      rewrite length_append in Hsep. rewrite !length_append in Hlen.
      rewrite !append_assoc. rewrite parse_object_S.
      change (": " +:+ ?x) with (String ":"%char (String " "%char x)).
      eat_separator ":"%char.
      rewrite skip_ws_dumps_indent.
      change ("," +:+ ?x) with (String ","%char x).
      rewrite IHv by (reflexivity || lia).
      eat_separator ","%char.
      rewrite skip_ws_newline_indent.
      destruct (join_indent_items_head indent (S level)
                  ("," +:+ newline_indent indent (S level))
                  (kv' :: kvs) (newline_indent indent level +:+ String "}" rest))
        as (s & Hj); [discriminate|].
      rewrite Hj, (skip_ws_head Py.dquote s eq_refl), <- Hj.
      rewrite IHo; [reflexivity | discriminate | lia].
Qed.

(** Decoding what [json.dumps] writes with an indentation gives the
    value back. *)
Lemma loads_dumps_indent (indent : nat) (v : Py.value) :
  Py.json.loads (dumps_indent indent 0 v) = Some v.
Proof.
  unfold Py.json.loads.
  rewrite <- (append_nil_r (dumps_indent indent 0 v)) at 2.
  rewrite skip_ws_dumps_indent.
  destruct (parse_dumps_indent indent (S (String.length (dumps_indent indent 0 v)))) as (Hv & _).
  rewrite Hv by (reflexivity || lia). reflexivity.
Qed.

(** ** The local runs *)

(** X15.  The scripts at the end of the two files.  The one of the
    bucket lister names its bucket in the event, so that it never
    reports a missing bucket, whatever the environment.  It ends in one
    of three ways: with the exception of [boto3.client] when there is
    one, no listing asked for; with a [KeyError] when the one listing,
    of [my-test-bucket], fails with a [ClientError] whose response lacks
    [Error], [Code] or [Message], nothing printed after the line that
    names the bucket; and in every other case by printing, after the
    lines of the handler and a heading, a report of the response, whose
    [statusCode] is 200 or 500, one listing of [my-test-bucket] having
    been asked for.  The one of the greeting handler, with its
    [MockContext], never fails and prints a report as well.  Either
    report, written by [json.dumps] with an indentation, decodes to the
    dictionary the handler returned, and the body in it decodes in turn
    to the document of the response. *)
Theorem local_runs_print_the_response :
  (forall w : S3Handler.World,
      let kwargs := {| Bucket := Py.Str "my-test-bucket"; MaxKeys := Some 10;
                       ContinuationToken := None |} in
      match S3Handler.boto3_client w "s3" with
      | Raise e =>
          s3_main w
          = ([Print "Hello World! Starting S3 bucket read operation..."; Boto3Client "s3"],
             Raise e)
      | Return s3 =>
          (exists Error_ operation_name key,
              s3 kwargs = Raise (ClientError Error_ operation_name)
              /\ missing_key Error_ = Some key
              /\ s3_main w
                 = ([Print "Hello World! Starting S3 bucket read operation...";
                     Boto3Client "s3";
                     Print "Reading from S3 bucket: my-test-bucket";
                     ListObjectsV2 kwargs],
                    Raise (Exception ("'" +:+ key +:+ "'"))))
          \/ ((forall Error_ operation_name,
                  s3 kwargs = Raise (ClientError Error_ operation_name) ->
                  missing_key Error_ = None)
              /\ exists trace r report doc,
                   S3Handler.lambda_handler (Py.Dict [("bucket_name", Py.Str "my-test-bucket")])
                     (Py.Dict []) w
                   = (trace, Return r)
                   /\ s3_main w
                      = ((trace ++ [Print (String (ascii_of_N 10) "--- Test Result ---");
                                    Print report])%list,
                         Return tt)
                   /\ listing_calls trace = [kwargs]
                   /\ (statusCode r = 200 \/ statusCode r = 500)
                   /\ Py.json.loads report
                      = Some (Py.Dict [("statusCode", Py.Int (statusCode r));
                                       ("body", Py.Str (body r))])
                   /\ Py.json.loads (body r) = Some (Py.Dict doc))
      end)
  /\ (forall now : Py.datetime,
         exists received returning report body_text,
           hello_main now = ([LogInfo received; LogInfo returning; Print report], Return tt)
           /\ Py.json.loads report
              = Some (Py.Dict [("statusCode", Py.Int 200);
                               ("headers",
                                Py.Dict [("Content-Type", Py.Str "application/json");
                                         ("Access-Control-Allow-Origin", Py.Str "*")]);
                               ("body", Py.Str body_text)])
           /\ Py.json.loads body_text
              = Some (Py.Dict [("message", Py.Str "Hello, GitHub User!");
                               ("timestamp", Py.Str (Py.isoformat now));
                               ("function_name", Py.Str "HelloWorldLambda");
                               ("request_id", Py.Str "local-test-request-id")])).
Proof.
  split.
  - intros w kwargs. unfold s3_main. cbv zeta.
    change (mbind ?k ?m) with (bind m k).
    rewrite dict_event_paths. cbv zeta.
    change (Py.or_ (default Py.None_
                      (Py.assoc "bucket_name" [("bucket_name", Py.Str "my-test-bucket")]))
                   (S3Handler.environ_get w "S3_BUCKET_NAME"))
      with (Py.Str "my-test-bucket").
    change (Py.truthy (Py.Str "my-test-bucket")) with true. cbv iota.
    destruct (S3Handler.boto3_client w "s3") as [s3|e]; [|reflexivity].
    fold kwargs.
    assert (Hreport : forall (trace : list effect) (r : Response) (doc : list (string * Py.value)),
               listing_calls trace = [kwargs] ->
               statusCode r = 200 \/ statusCode r = 500 ->
               headers r = None ->
               body r = Py.json.dumps (Py.Dict doc) ->
               exists trace' r' report doc',
                 (trace, Return r) = (trace', Return r')
                 /\ bind (trace, Return r)
                      (fun result =>
                         print (String (ascii_of_N 10) "--- Test Result ---");;
                         print (dumps_indent 2 0 (response_value result)))
                    = ((trace' ++ [Print (String (ascii_of_N 10) "--- Test Result ---");
                                   Print report])%list,
                       Return tt)
                 /\ listing_calls trace' = [kwargs]
                 /\ (statusCode r' = 200 \/ statusCode r' = 500)
                 /\ Py.json.loads report
                    = Some (Py.Dict [("statusCode", Py.Int (statusCode r'));
                                     ("body", Py.Str (body r'))])
                 /\ Py.json.loads (body r') = Some (Py.Dict doc')).
    { intros trace [status hs text] doc Hcalls Hstatus Hheaders Hbody.
      cbn in Hheaders, Hbody. subst hs text.
      eexists trace, _, _, doc. split; [reflexivity|]. split; [reflexivity|].
      split; [exact Hcalls|]. split; [exact Hstatus|].
      split; [apply (loads_dumps_indent 2) | apply loads_dumps]. }
    listing_outcome s3.
    + right. split; [discriminate|].
      eapply Hreport; [reflexivity | now left | reflexivity | reflexivity].
    + right. split.
      * intros Error_ operation_name [= <- _]. unfold missing_key. now rewrite Hcode, Hmessage.
      * eapply Hreport; [reflexivity | now right | reflexivity | reflexivity].
    + left. exists (Some error), op, "Message". unfold missing_key. rewrite Hcode, Hmessage.
      repeat split; reflexivity.
    + left. exists (Some error), op, "Code". unfold missing_key. rewrite Hcode.
      repeat split; reflexivity.
    + left. exists None, op, "Error". repeat split; reflexivity.
    + right. split; [discriminate|].
      eapply Hreport; [reflexivity | now right | reflexivity | reflexivity].
  - intros now. unfold hello_main. cbv zeta.
    change (mbind ?k ?m) with (bind m k).
    rewrite greeting_paths. cbv zeta.
    eexists _, _, _, _. split; [reflexivity|].
    split; [apply (loads_dumps_indent 2) | apply loads_dumps].
Qed.

(** ** Writing and reading JSON *)

(** X16.  What the handlers write the tests can read: decoding with
    [json.loads] the text that [json.dumps] writes for a value, in one
    line or with an indentation, gives the value back; so two values
    with the same text are the same value, and a body tells its document
    apart from every other. *)
Theorem json_round_trip (v : Py.value) :
  Py.json.loads (Py.json.dumps v) = Some v
  /\ (forall indent, Py.json.loads (dumps_indent indent 0 v) = Some v)
  /\ (forall v', Py.json.dumps v = Py.json.dumps v' -> v = v').
Proof.
  split; [apply loads_dumps|]. split; [intros indent; apply loads_dumps_indent|].
  intros v' Hsame.
  pose proof (loads_dumps v) as Hv. rewrite Hsame, loads_dumps in Hv. congruence.
Qed.

(** Two documents that differ in the type of a field: the number 7 and
    the string of its digit are written differently. *)
Lemma json_round_trip_witness :
  Py.json.dumps (Py.Dict [("bucket", Py.Int 7)])
  <> Py.json.dumps (Py.Dict [("bucket", Py.Str "7")])
  /\ Py.json.loads (Py.json.dumps (Py.Dict [("bucket", Py.Int 7)]))
     = Some (Py.Dict [("bucket", Py.Int 7)]).
Proof.
  destruct (json_round_trip (Py.Dict [("bucket", Py.Int 7)])) as (Hloads & _ & Hinj).
  split; [|exact Hloads].
  intros Hsame. specialize (Hinj _ Hsame). discriminate Hinj.
Defined.

Example dumps_indent_nested :
  dumps_indent 2 0
    (Py.Dict [("a", Py.List [Py.Int 1; Py.List [Py.Int 2; Py.Dict []]; Py.List []]);
              ("b", Py.Dict [("c", Py.None_)])])
  = dq "{
  'a': [
    1,
    [
      2,
      {}
    ],
    []
  ],
  'b': {
    'c': null
  }
}".
Proof. vm_compute. reflexivity. Qed.

Example report_of_the_greeting_script :
  last (fst (hello_main {| Py.year := 2024; Py.month := 1; Py.day := 1; Py.hour := 12;
                           Py.minute := 0; Py.second := 0; Py.microsecond := 0;
                           Py.utcoffset := Some 0 |}))
  = Some (Print (dq "{
  'statusCode': 200,
  'headers': {
    'Content-Type': 'application/json',
    'Access-Control-Allow-Origin': '*'
  },
  'body': '{\'message\': \'Hello, GitHub User!\', \'timestamp\': \'2024-01-01T12:00:00+00:00\', \'function_name\': \'HelloWorldLambda\', \'request_id\': \'local-test-request-id\'}'
}")).
Proof. vm_compute. reflexivity. Qed.
